(** * Metropolis-Hastings notebooks: a shallow embedding

    The two notebooks under [5 - Markov Chain Monte Carlo] run the same
    sampling loop over a preallocated array [markov_chain] of [n_mc] rows:
    [mcmc_knownvariance.ipynb] against [scipy]'s bivariate normal density and
    [mcmc_unknownvariance.ipynb] against [posterior_space_2].

    Numbers.  The notebooks compute with numpy [float64].  The type
    [float64] below keeps what the sampler's control flow depends on: the
    finite values, the two infinities and NaN, with the IEEE 754 rules for
    the special values (division by zero, [0 * inf], comparisons with NaN).
    Rounding, overflow of finite results and the sign of zero are abstracted:
    a finite value is a real number. *)

From Stdlib Require Import Reals Lra Lia ZArith.
From stdpp Require Import base list option.

Open Scope R_scope.

(** ** numpy float64 values and the operations the notebooks use *)

Module NumPy.

Inductive float64 : Type :=
| Fin (x : R)
| PInf
| NInf
| NaN.

(** The floating-point conditions numpy reports as a [RuntimeWarning]
    ("divide by zero encountered", "invalid value encountered"); with the
    default error state no exception is raised. *)
Inductive fp_error : Type :=
| DivideByZero
| InvalidValue.

Definition is_finite (a : float64) : bool :=
  match a with Fin _ => true | _ => false end.

(** A Python or numpy boolean used as a number: [True] is 1, [False] is 0. *)
Definition of_bool (b : bool) : float64 := if b then Fin 1 else Fin 0.

(** Infinity with the sign of the finite real [x] (only used for [x <> 0];
    zero counts as positive, the sign of zero not being modelled). *)
Definition inf_like (x : R) : float64 := if Rlt_dec x 0 then NInf else PInf.

Definition negative (a : float64) : float64 :=
  match a with
  | Fin x => Fin (- x)
  | PInf => NInf
  | NInf => PInf
  | NaN => NaN
  end.

Definition add (a b : float64) : float64 :=
  match a, b with
  | NaN, _ | _, NaN => NaN
  | Fin x, Fin y => Fin (x + y)
  | PInf, NInf | NInf, PInf => NaN
  | PInf, _ | _, PInf => PInf
  | NInf, _ | _, NInf => NInf
  end.

Definition subtract (a b : float64) : float64 := add a (negative b).

Definition multiply (a b : float64) : float64 :=
  match a, b with
  | NaN, _ | _, NaN => NaN
  | Fin x, Fin y => Fin (x * y)
  | Fin x, PInf | PInf, Fin x =>
      if Req_dec_T x 0 then NaN else inf_like x
  | Fin x, NInf | NInf, Fin x =>
      if Req_dec_T x 0 then NaN else negative (inf_like x)
  | PInf, PInf | NInf, NInf => PInf
  | PInf, NInf | NInf, PInf => NInf
  end.

(** [a / b] on float64 (numpy's [true_divide]): a zero divisor gives an
    infinity or NaN, never an exception.  A zero divisor counts as [+0],
    the zero the densities of the notebooks produce. *)
Definition true_divide (a b : float64) : float64 :=
  match a, b with
  | NaN, _ | _, NaN => NaN
  | Fin x, Fin y =>
      if Req_dec_T y 0
      then (if Req_dec_T x 0 then NaN else inf_like x)
      else Fin (x / y)
  | Fin _, PInf | Fin _, NInf => Fin 0
  | PInf, Fin y => inf_like y
  | NInf, Fin y => negative (inf_like y)
  | PInf, PInf | PInf, NInf | NInf, PInf | NInf, NInf => NaN
  end.

(** What [a / b] reports besides its value. *)
Definition divide_warnings (a b : float64) : list fp_error :=
  match a, b with
  | Fin x, Fin y =>
      if Req_dec_T y 0
      then (if Req_dec_T x 0 then [InvalidValue] else [DivideByZero])
      else []
  | PInf, PInf | PInf, NInf | NInf, PInf | NInf, NInf => [InvalidValue]
  | _, _ => []
  end.

(** [a > b]; every comparison with NaN is [False]. *)
Definition greater (a b : float64) : bool :=
  match a, b with
  | NaN, _ | _, NaN => false
  | Fin x, Fin y => if Rlt_dec y x then true else false
  | PInf, PInf => false
  | PInf, _ => true
  | NInf, _ => false
  | Fin _, PInf => false
  | Fin _, NInf => true
  end.

Definition square (a : float64) : float64 := multiply a a.

(** [numpy.exp].  A finite result is the real exponential: underflow to
    0 and overflow to [inf] are not modelled. *)
Definition exp (a : float64) : float64 :=
  match a with
  | Fin x => Fin (Rtrigo_def.exp x)
  | PInf => PInf
  | NInf => Fin 0
  | NaN => NaN
  end.

Definition is_integer (y : R) : bool :=
  if Req_dec_T (IZR (Int_part y)) y then true else false.

Definition is_odd_integer (y : R) : bool :=
  is_integer y && Z.odd (Int_part y).

(** [numpy.power(a, y)] for a finite exponent [y], following C's [pow]:
    [pow(a, 0) = 1] for every [a]; a zero base with a negative exponent
    gives an infinity; a negative base needs an integer exponent.  A finite
    result is the real power: overflow and underflow are not modelled. *)
Definition power (a : float64) (y : R) : float64 :=
  if Req_dec_T y 0 then Fin 1 else
  match a with
  | NaN => NaN
  | PInf => if Rlt_dec 0 y then PInf else Fin 0
  | NInf =>
      if Rlt_dec 0 y
      then (if is_odd_integer y then NInf else PInf)
      else Fin 0
  | Fin b =>
      if Rlt_dec 0 b then Fin (Rpower b y)
      else if Req_dec_T b 0 then (if Rlt_dec 0 y then Fin 0 else PInf)
      else if is_integer y then Fin (powerRZ b (Int_part y))
      else NaN
  end.

End NumPy.

Import NumPy.

(** A chain state: one row of the [(n_mc, 2)] array. *)
Definition State : Type := float64 * float64.

(** ** The two target densities of [mcmc_unknownvariance.ipynb] *)

(** [posterior_space(mean, sigma, N, curr_param)], "the raw posterior". *)
Definition posterior_space (mean sigma : float64) (N : Z) (curr_param : State)
  : float64 :=
  let cps := snd curr_param in
  let p1 := power cps (- (IZR N + 2) / 2) in
  let p2 := multiply (Fin (IZR (N - 1))) (square sigma) in
  let p3 := multiply (Fin (IZR N)) (square (subtract mean (fst curr_param))) in
  let p4 := true_divide (Fin (-1)) (multiply (Fin 2) cps) in
  let p5 := exp (multiply p4 (add p2 p3)) in
  multiply (multiply (of_bool (greater (snd curr_param) (Fin 0))) p1) p5.

(** [posterior_space_2(mean, sigma, N, curr_param)], "more numerically
    stable"; the one the sampling loop calls. *)
Definition posterior_space_2 (mean sigma : float64) (N : Z) (curr_param : State)
  : float64 :=
  let p1 := power (snd curr_param) (IZR (- N + 2)) in
  let p2 := multiply (Fin (IZR (N - 1))) (square sigma) in
  let p3 := multiply (Fin (IZR N)) (square (subtract mean (fst curr_param))) in
  let p4 := multiply (Fin 2) (square (snd curr_param)) in
  multiply (multiply (of_bool (greater (snd curr_param) (Fin 0))) p1)
           (exp (true_divide (multiply (Fin (-1)) (add p2 p3)) p4)).

(** ** The sampling loop (both notebooks) *)

(** [numpy.zeros((n_mc, 2))]. *)
Definition zeros (n_mc : nat) : list State := replicate n_mc (Fin 0, Fin 0).

(** [a[i] = v] on an array of rows: [None] stands for Python's
    [IndexError]; the array never grows. *)
Definition setitem (a : list State) (i : nat) (v : State) : option (list State) :=
  if decide (i < length a)%nat then Some (<[i:=v]> a) else None.

(** The variables the loop reads and writes, the state of the random
    generator, and the warnings raised by the ratio's division so far. *)
Record LoopState (RandomSource : Type) : Type := MkLoopState {
  markov_chain : list State;
  acceptances : nat;
  random_state : RandomSource;
  ratio_warnings : list fp_error
}.
Arguments MkLoopState {RandomSource} _ _ _ _.
Arguments markov_chain {RandomSource} _.
Arguments acceptances {RandomSource} _.
Arguments random_state {RandomSource} _.
Arguments ratio_warnings {RandomSource} _.

Section MetropolisHastings.

(** The random generator: its state, the proposal noise draw
    ([numpy.random.multivariate_normal], [numpy.random.randn(2)]) and the
    uniform draw [numpy.random.rand()]. *)
Context {RandomSource Noise : Type}.
Variable draw_noise : RandomSource -> Noise * RandomSource.
Variable draw_rand : RandomSource -> float64 * RandomSource.

(** The target density and the proposal ([current + noise]). *)
Variable target_density : State -> float64.
Variable propose : State -> Noise -> State.

(** One pass through the body of [for i in numpy.arange(n_mc-1)]. *)
Definition loop_body (i : nat) (s : LoopState RandomSource)
  : option (LoopState RandomSource) :=
  current ← markov_chain s !! i;
  let '(noise, g1) := draw_noise (random_state s) in
  let proposed := propose current noise in
  let pdf_curr := target_density current in
  let pdf_proposed := target_density proposed in
  let ratio := true_divide pdf_proposed pdf_curr in
  let warnings := ratio_warnings s ++ divide_warnings pdf_proposed pdf_curr in
  let '(rand, g2) := draw_rand g1 in
  if greater ratio rand then
    chain' ← setitem (markov_chain s) (i + 1) proposed;
    Some (MkLoopState chain' (acceptances s + 1) g2 warnings)
  else
    chain' ← setitem (markov_chain s) (i + 1) current;
    Some (MkLoopState chain' (acceptances s) g2 warnings).

(** The loop over a list of indices. *)
Fixpoint loop (indices : list nat) (s : LoopState RandomSource)
  : option (LoopState RandomSource) :=
  match indices with
  | [] => Some s
  | i :: rest => s' ← loop_body i s; loop rest s'
  end.

(** The variables before the loop: the array of zeros with the first
    guess written at index 0, and no acceptance yet. *)
Definition initialise (initial_state : State) (n_mc : nat) (g : RandomSource)
  : option (LoopState RandomSource) :=
  chain ← setitem (zeros n_mc) 0 initial_state;
  Some (MkLoopState chain 0 g []).

(** The variables at the start of iteration [k] (after [k] passes). *)
Definition state_at (initial_state : State) (n_mc : nat) (g : RandomSource)
  (k : nat) : option (LoopState RandomSource) :=
  s ← initialise initial_state n_mc g; loop (seq 0 k) s.

(** The whole cell: [numpy.arange(n_mc-1)] is [0, ..., n_mc-2]. *)
Definition run (initial_state : State) (n_mc : nat) (g : RandomSource)
  : option (LoopState RandomSource) :=
  state_at initial_state n_mc g (n_mc - 1).

(** [acceptance_ratio = acceptances / n_mc] ([mcmc_knownvariance.ipynb]);
    [None] stands for Python's [ZeroDivisionError]. *)
Definition acceptance_ratio (final : LoopState RandomSource) (n_mc : nat)
  : option float64 :=
  if decide (n_mc = 0%nat) then None
  else Some (Fin (INR (acceptances final) / INR n_mc)).

(** The draws of the first [k] iterations, in order. *)
Fixpoint draws (k : nat) (g : RandomSource) : list (Noise * float64) :=
  match k with
  | O => []
  | S k' =>
      let '(noise, g1) := draw_noise g in
      let '(rand, g2) := draw_rand g1 in
      (noise, rand) :: draws k' g2
  end.

(** The state of the random generator once the draws of [k] passes are
    made. *)
Fixpoint after_draws (k : nat) (g : RandomSource) : RandomSource :=
  match k with
  | O => g
  | S k' =>
      let '(_, g1) := draw_noise g in
      let '(_, g2) := draw_rand g1 in
      after_draws k' g2
  end.

End MetropolisHastings.

(** ** The two notebooks as instances *)

(** [a + b] on rows. *)
Definition row_add (a b : State) : State :=
  (add (fst a) (fst b), add (snd a) (snd b)).

(** [numpy.dot(m, v)] for a 2x2 matrix (a pair of rows) and a 2-vector. *)
Definition dot (m : State * State) (v : State) : State :=
  (add (multiply (fst (fst m)) (fst v)) (multiply (snd (fst m)) (snd v)),
   add (multiply (fst (snd m)) (fst v)) (multiply (snd (snd m)) (snd v))).

Section Notebooks.

Context {RandomSource : Type}.
Variable draw_rand : RandomSource -> float64 * RandomSource.

(** [mcmc_knownvariance.ipynb], with the first guess and [n_mc] as
    arguments: [pdf] stands for [multivariate_normal.pdf(_, means, Sigma)]
    and [draw_noise] for [numpy.random.multivariate_normal(meanp, covp)].
    The cell ends by computing [acceptance_ratio]. *)
Definition mcmc_knownvariance (pdf : State -> float64)
  (initial_state : State) (n_mc : nat)
  (draw_noise : RandomSource -> State * RandomSource) (g : RandomSource)
  : option (LoopState RandomSource * float64) :=
  final ← run draw_noise draw_rand pdf row_add initial_state n_mc g;
  ratio ← acceptance_ratio final n_mc;
  Some (final, ratio).

(** The cell as the notebook has it: [n_mc = 1000] and the first guess
    [[9.234, 0.567]]. *)
Definition knownvariance_cell (pdf : State -> float64)
  (draw_noise : RandomSource -> State * RandomSource) (g : RandomSource)
  : option (LoopState RandomSource * float64) :=
  mcmc_knownvariance pdf (Fin 9.234, Fin 0.567) 1000 draw_noise g.

(** [mcmc_unknownvariance.ipynb], with the first guess and [n_mc] as
    arguments: [draw_randn] stands for [numpy.random.randn(2)]; [cholesky]
    is the Cholesky factor of the diagonal [proposal_covariance], the
    diagonal of the scales. *)
Definition meanx : float64 := Fin 5.
Definition sigmax : float64 := Fin 2.
Definition Nx : Z := 100.
Definition tau_mu : float64 := Fin 0.6.
Definition tau_sigma : float64 := Fin 0.1.
Definition cholesky : State * State := ((tau_mu, Fin 0), (Fin 0, tau_sigma)).

Definition unknownvariance_propose (current_val z : State) : State :=
  row_add current_val (dot cholesky z).

Definition mcmc_unknownvariance (initial_state : State) (n_mc : nat)
  (draw_randn : RandomSource -> State * RandomSource) (g : RandomSource)
  : option (LoopState RandomSource) :=
  run draw_randn draw_rand (posterior_space_2 meanx sigmax Nx)
      unknownvariance_propose initial_state n_mc g.

(** The cell as the notebook has it: [n_mc = 1000] and the first guess
    [[3.2, 8.6]]. *)
Definition unknownvariance_cell
  (draw_randn : RandomSource -> State * RandomSource) (g : RandomSource)
  : option (LoopState RandomSource) :=
  mcmc_unknownvariance (Fin 3.2, Fin 8.6) 1000 draw_randn g.

End Notebooks.

(** ** Scripted random sources, for worked runs *)

(** A source that hands out the same noise and the same uniform number at
    every draw, and has no state. *)
Definition constant_noise (z : State) (g : unit) : State * unit := (z, g).
Definition constant_rand (u : float64) (g : unit) : float64 * unit := (u, g).

(** The same draws from a source whose state counts the draws made. *)
Definition counting_noise (z : State) (g : nat) : State * nat := (z, S g).
Definition counting_rand (u : float64) (g : nat) : float64 * nat := (u, S g).

(** A flat target on the support [curr_param[1] > 0], zero outside. *)
Definition support_indicator (x : State) : float64 :=
  of_bool (greater (snd x) (Fin 0)).

(** The support of the unknown-variance target: a finite mean and a
    finite, positive second component ([curr_param[1] > 0]). *)
Definition in_support (x : State) : Prop :=
  exists mu s, x = (Fin mu, Fin s) /\ 0 < s.

(** A density value that is a positive number. *)
Definition positive (a : float64) : Prop :=
  exists r, a = Fin r /\ 0 < r.

(** * Properties *)

(** ** Array writes *)

Lemma setitem_Some (a : list State) (i : nat) (v : State) :
  (i < length a)%nat -> setitem a i v = Some (<[i:=v]> a).
Proof. intros Hi. unfold setitem. by rewrite decide_True. Qed.

Lemma setitem_inv (a a' : list State) (i : nat) (v : State) :
  setitem a i v = Some a' -> (i < length a)%nat /\ a' = <[i:=v]> a.
Proof.
  unfold setitem. destruct (decide (i < length a)%nat); [|done].
  intros [= <-]. done.
Qed.

(** ** The ratio's division and the acceptance test *)

Lemma true_divide_Fin (x y : R) :
  y <> 0 -> true_divide (Fin x) (Fin y) = Fin (x / y).
Proof. intros Hy. simpl. by destruct (Req_dec_T y 0). Qed.

Lemma greater_Fin (x y : R) : y < x -> greater (Fin x) (Fin y) = true.
Proof. intros H. simpl. by destruct (Rlt_dec y x). Qed.

Lemma zero_over_zero :
  true_divide (Fin 0) (Fin 0) = NaN /\
  divide_warnings (Fin 0) (Fin 0) = [InvalidValue].
Proof. simpl. by destruct (Req_dec_T 0 0). Qed.

Lemma positive_over_zero (a : R) :
  0 < a ->
  true_divide (Fin a) (Fin 0) = PInf /\
  divide_warnings (Fin a) (Fin 0) = [DivideByZero].
Proof.
  intros Ha. simpl. unfold inf_like.
  destruct (Req_dec_T 0 0); [|done].
  destruct (Req_dec_T a 0); [lra|].
  destruct (Rlt_dec a 0); [lra|done].
Qed.

(** A ratio of at least 1 beats every uniform draw of [[0, 1)]. *)
Lemma ratio_at_least_one (a b u : R) :
  0 < b -> b <= a -> u < 1 ->
  greater (true_divide (Fin a) (Fin b)) (Fin u) = true.
Proof.
  intros Hb Hab Hu. rewrite true_divide_Fin by lra. apply greater_Fin.
  apply Rlt_le_trans with 1; [done|].
  apply Rmult_le_reg_r with b; [done|].
  unfold Rdiv. rewrite Rmult_assoc, Rinv_l by lra. lra.
Qed.

Section LoopFacts.

Context {RandomSource Noise : Type}.
Variable draw_noise : RandomSource -> Noise * RandomSource.
Variable draw_rand : RandomSource -> float64 * RandomSource.
Variable target_density : State -> float64.
Variable propose : State -> Noise -> State.

Local Abbreviation body := (loop_body draw_noise draw_rand target_density propose).
Local Abbreviation iterate := (loop draw_noise draw_rand target_density propose).
Local Abbreviation at_step := (state_at draw_noise draw_rand target_density propose).
Local Abbreviation sampler := (run draw_noise draw_rand target_density propose).

(** What one pass does, read off the body. *)
Lemma loop_body_inv (i : nat) (s s' : LoopState RandomSource) :
  body i s = Some s' ->
  exists current noise g1 rand g2,
    markov_chain s !! i = Some current /\
    draw_noise (random_state s) = (noise, g1) /\
    draw_rand g1 = (rand, g2) /\
    (i + 1 < length (markov_chain s))%nat /\
    random_state s' = g2 /\
    ratio_warnings s' =
      ratio_warnings s ++
      divide_warnings (target_density (propose current noise))
                      (target_density current) /\
    if greater (true_divide (target_density (propose current noise))
                            (target_density current)) rand
    then markov_chain s' = <[(i + 1)%nat := propose current noise]> (markov_chain s)
         /\ acceptances s' = (acceptances s + 1)%nat
    else markov_chain s' = <[(i + 1)%nat := current]> (markov_chain s)
         /\ acceptances s' = acceptances s.
Proof.
  unfold loop_body. intros H.
  destruct (markov_chain s !! i) as [current|] eqn:Hcur; [|done]. simpl in H.
  destruct (draw_noise (random_state s)) as [noise g1] eqn:Hn.
  destruct (draw_rand g1) as [rand g2] eqn:Hr.
  exists current, noise, g1, rand, g2.
  destruct (greater _ rand); simpl in H.
  - destruct (setitem _ _ _) as [c|] eqn:Hset; [|done].
    apply setitem_inv in Hset as [Hlt ->]. injection H as <-. done.
  - destruct (setitem _ _ _) as [c|] eqn:Hset; [|done].
    apply setitem_inv in Hset as [Hlt ->]. injection H as <-. done.
Qed.

Lemma loop_body_total (i : nat) (s : LoopState RandomSource) :
  (i + 1 < length (markov_chain s))%nat -> is_Some (body i s).
Proof.
  intros Hi. unfold loop_body.
  destruct (lookup_lt_is_Some_2 (markov_chain s) i) as [current ->]; [lia|].
  simpl. destruct (draw_noise _) as [noise g1], (draw_rand g1) as [rand g2].
  destruct (greater _ rand); rewrite setitem_Some by done; simpl; eauto.
Qed.

Lemma loop_body_length (i : nat) (s s' : LoopState RandomSource) :
  body i s = Some s' -> length (markov_chain s') = length (markov_chain s).
Proof.
  intros H. apply loop_body_inv in H
    as (current & noise & g1 & rand & g2 & _ & _ & _ & _ & _ & _ & H).
  destruct (greater _ rand); destruct H as [-> _]; apply length_insert.
Qed.

(** A pass writes row [i + 1] and no other. *)
Lemma loop_body_frame (i j : nat) (s s' : LoopState RandomSource) :
  body i s = Some s' -> j <> (i + 1)%nat ->
  markov_chain s' !! j = markov_chain s !! j.
Proof.
  intros H Hj. apply loop_body_inv in H
    as (current & noise & g1 & rand & g2 & _ & _ & _ & _ & _ & _ & H).
  destruct (greater _ rand); destruct H as [-> _];
    by apply list_lookup_insert_ne.
Qed.

Lemma loop_body_acceptances (i : nat) (s s' : LoopState RandomSource) :
  body i s = Some s' ->
  (acceptances s <= acceptances s' <= acceptances s + 1)%nat.
Proof.
  intros H. apply loop_body_inv in H
    as (current & noise & g1 & rand & g2 & _ & _ & _ & _ & _ & _ & H).
  destruct (greater _ rand); destruct H as [_ ->]; lia.
Qed.

Lemma loop_app (l1 l2 : list nat) (s : LoopState RandomSource) :
  iterate (l1 ++ l2) s = iterate l1 s ≫= iterate l2.
Proof.
  revert s. induction l1 as [|i l1 IH]; intros s; simpl; [done|].
  destruct (body i s) as [s1|]; simpl; [apply IH | done].
Qed.

Lemma loop_length (indices : list nat) (s s' : LoopState RandomSource) :
  iterate indices s = Some s' ->
  length (markov_chain s') = length (markov_chain s).
Proof.
  revert s. induction indices as [|i rest IH]; intros s; simpl.
  - by intros [= ->].
  - destruct (body i s) as [s1|] eqn:H1; simpl; [|done].
    intros H. rewrite (IH _ H). by eapply loop_body_length.
Qed.

(** The loop raises no [IndexError] while [i + 1] stays inside the array. *)
Lemma loop_total (indices : list nat) (s : LoopState RandomSource) :
  (forall i, i ∈ indices -> (i + 1 < length (markov_chain s))%nat) ->
  is_Some (iterate indices s).
Proof.
  revert s. induction indices as [|i rest IH]; intros s Hin; simpl; [eauto|].
  destruct (loop_body_total i s) as [s1 H1]; [apply Hin; left|].
  rewrite H1. simpl. apply IH. intros k Hk.
  rewrite (loop_body_length _ _ _ H1). apply Hin. by right.
Qed.

Lemma loop_frame (indices : list nat) (j : nat) (s s' : LoopState RandomSource) :
  iterate indices s = Some s' ->
  (forall i, i ∈ indices -> j <> (i + 1)%nat) ->
  markov_chain s' !! j = markov_chain s !! j.
Proof.
  revert s. induction indices as [|i rest IH]; intros s; simpl.
  - by intros [= ->].
  - destruct (body i s) as [s1|] eqn:H1; simpl; [|done].
    intros H Hj. rewrite (IH _ H).
    + eapply loop_body_frame; [done|]. apply Hj. left.
    + intros k Hk. apply Hj. by right.
Qed.

Lemma loop_acceptances (indices : list nat) (s s' : LoopState RandomSource) :
  iterate indices s = Some s' ->
  (acceptances s <= acceptances s' <= acceptances s + length indices)%nat.
Proof.
  revert s. induction indices as [|i rest IH]; intros s; simpl.
  - intros [= ->]. lia.
  - destruct (body i s) as [s1|] eqn:H1; simpl; [|done].
    intros H. apply IH in H. apply loop_body_acceptances in H1. lia.
Qed.

(** ** The loop from the initial variables *)

Lemma initialise_Some (initial_state : State) (n_mc : nat) (g : RandomSource) :
  (1 <= n_mc)%nat ->
  initialise initial_state n_mc g =
    Some (MkLoopState (<[0%nat := initial_state]> (zeros n_mc)) 0 g []).
Proof.
  intros Hn. unfold initialise. rewrite setitem_Some; [done|].
  unfold zeros. rewrite length_replicate. lia.
Qed.

Lemma state_at_S (initial_state : State) (n_mc : nat) (g : RandomSource) (k : nat) :
  at_step initial_state n_mc g (S k) = at_step initial_state n_mc g k ≫= body k.
Proof.
  unfold state_at. rewrite seq_S.
  destruct (initialise _ _ _) as [s0|]; [|done].
  change (iterate (seq 0 k ++ [k]) s0 = iterate (seq 0 k) s0 ≫= body k).
  rewrite loop_app.
  destruct (iterate (seq 0 k) s0) as [s|]; simpl; [|done].
  by destruct (body k s).
Qed.

(** The loop invariant: after [k <= n_mc - 1] passes the array still has
    [n_mc] rows, row 0 is the first guess and at most [k] proposals were
    accepted. *)
Lemma state_at_invariant (initial_state : State) (n_mc : nat) (g : RandomSource)
  (k : nat) :
  (1 <= n_mc)%nat -> (k <= n_mc - 1)%nat ->
  exists s, at_step initial_state n_mc g k = Some s /\
            length (markov_chain s) = n_mc /\
            markov_chain s !! 0%nat = Some initial_state /\
            (acceptances s <= k)%nat.
Proof.
  intros Hn Hk. unfold state_at. rewrite initialise_Some by done. simpl.
  set (s0 := MkLoopState _ _ _ _).
  assert (Hlen0 : length (markov_chain s0) = n_mc).
  { simpl. rewrite length_insert. unfold zeros. apply length_replicate. }
  destruct (loop_total (seq 0 k) s0) as [s Hs].
  { intros i Hi. apply elem_of_seq in Hi. lia. }
  exists s. split; [done|]. split; [|split].
  - by rewrite (loop_length _ _ _ Hs).
  - rewrite (loop_frame _ 0%nat _ _ Hs) by (intros; lia).
    simpl. apply list_lookup_insert_eq. unfold zeros.
    rewrite length_replicate. lia.
  - apply loop_acceptances in Hs. rewrite length_seq in Hs. simpl in Hs. lia.
Qed.

(** Rows up to [k] are final once [k] passes are done: later passes write
    rows above [k]. *)
Lemma state_at_stable (initial_state : State) (n_mc : nat) (g : RandomSource)
  (k k' j : nat) (s s' : LoopState RandomSource) :
  at_step initial_state n_mc g k = Some s ->
  at_step initial_state n_mc g k' = Some s' ->
  (j <= k <= k')%nat ->
  markov_chain s' !! j = markov_chain s !! j.
Proof.
  unfold state_at. destruct (initialise _ _ _) as [s0|]; simpl; [|done].
  intros Hs Hs' Hj.
  replace k' with (k + (k' - k))%nat in Hs' by lia.
  rewrite seq_app, loop_app, Hs in Hs'. simpl in Hs'.
  apply (loop_frame _ j _ _ Hs'). intros i Hi. apply elem_of_seq in Hi. lia.
Qed.

(** Pass [i] of a run: it does not fail, it leads from the variables at
    step [i] to those at step [i + 1], and the rows [i] and [i + 1] it
    reads and writes are the ones of the returned chain. *)
Lemma pass_of_run (initial_state : State) (n_mc : nat) (g : RandomSource)
  (i : nat) :
  (i + 1 < n_mc)%nat ->
  exists final s s',
    sampler initial_state n_mc g = Some final /\
    at_step initial_state n_mc g i = Some s /\
    at_step initial_state n_mc g (i + 1) = Some s' /\
    body i s = Some s' /\
    markov_chain final !! i = markov_chain s !! i /\
    markov_chain final !! (i + 1)%nat = markov_chain s' !! (i + 1)%nat.
Proof.
  intros Hi.
  destruct (state_at_invariant initial_state n_mc g (n_mc - 1))
    as (final & Hfinal & _); [lia..|].
  destruct (state_at_invariant initial_state n_mc g i)
    as (s & Hs & Hlen & _); [lia..|].
  destruct (state_at_invariant initial_state n_mc g (i + 1))
    as (s' & Hs' & _); [lia..|].
  exists final, s, s'. repeat (split; [done|]). split; [|split].
  - replace (i + 1)%nat with (S i) in Hs' by lia.
    rewrite state_at_S, Hs in Hs'. exact Hs'.
  - apply (state_at_stable initial_state n_mc g i (n_mc - 1) i s final);
      (done || lia).
  - apply (state_at_stable initial_state n_mc g (i + 1) (n_mc - 1) (i + 1)
             s' final); (done || lia).
Qed.

(** ** The claims on the loop *)

(** C1: at every step [i] of the run, with [candidate = propose(chain[i])],
    [r = target_density(candidate) / target_density(chain[i])] and [u] the
    uniform draw of that step: if [r > u] then [chain[i+1]] is the candidate
    and the acceptance counter grows by one, otherwise [chain[i+1]] is
    [chain[i]] and the counter is unchanged.  The run itself returns. *)
Theorem step_accepts_or_replays (initial_state : State) (n_mc : nat)
  (g : RandomSource) (i : nat) :
  (i + 1 < n_mc)%nat ->
  exists final s s' current noise g1 rand g2,
    sampler initial_state n_mc g = Some final /\
    at_step initial_state n_mc g i = Some s /\
    at_step initial_state n_mc g (i + 1) = Some s' /\
    markov_chain final !! i = Some current /\
    draw_noise (random_state s) = (noise, g1) /\
    draw_rand g1 = (rand, g2) /\
    let candidate := propose current noise in
    let r := true_divide (target_density candidate) (target_density current) in
    if greater r rand
    then markov_chain final !! (i + 1)%nat = Some candidate /\
         acceptances s' = (acceptances s + 1)%nat
    else markov_chain final !! (i + 1)%nat = Some current /\
         acceptances s' = acceptances s.
Proof.
  intros Hi.
  destruct (pass_of_run initial_state n_mc g i Hi)
    as (final & s & s' & Hfinal & Hs & Hs' & Hbody & Hrow & Hnext).
  destruct (loop_body_inv _ _ _ Hbody)
    as (current & noise & g1 & rand & g2 & Hcur & Hn & Hr & Hlt & _ & _ & Hif).
  exists final, s, s', current, noise, g1, rand, g2.
  repeat (split; [first [done | congruence]|]).
  simpl. rewrite Hnext.
  destruct (greater _ rand); destruct Hif as [-> ->];
    (split; [by apply list_lookup_insert_eq | done]).
Qed.

(** C6: for [n_steps >= 1], at every point of the run (after any number
    [k] of passes) and at its end, [0 <= acceptances <= n_steps - 1]: the
    counter starts at 0 with the initial state and grows by at most one in
    each of the [n_steps - 1] passes. *)
Theorem acceptance_bound (initial_state : State) (n_mc : nat) (g : RandomSource) :
  (1 <= n_mc)%nat ->
  (forall k, (k <= n_mc - 1)%nat ->
     exists s, at_step initial_state n_mc g k = Some s /\
               (0 <= acceptances s <= k)%nat /\
               (acceptances s <= n_mc - 1)%nat) /\
  (forall k, (k + 1 <= n_mc - 1)%nat ->
     exists s s', at_step initial_state n_mc g k = Some s /\
                  at_step initial_state n_mc g (k + 1) = Some s' /\
                  (acceptances s <= acceptances s' <= acceptances s + 1)%nat) /\
  exists final, sampler initial_state n_mc g = Some final /\
                (0 <= acceptances final <= n_mc - 1)%nat.
Proof.
  intros Hn. split; [|split].
  - intros k Hk.
    destruct (state_at_invariant initial_state n_mc g k)
      as (s & Hs & _ & _ & Hacc); [lia..|].
    exists s. split; [done|]. lia.
  - intros k Hk.
    destruct (pass_of_run initial_state n_mc g k)
      as (_ & s & s' & _ & Hs & Hs' & Hbody & _); [lia|].
    exists s, s'. repeat (split; [done|]).
    by apply loop_body_acceptances in Hbody.
  - destruct (state_at_invariant initial_state n_mc g (n_mc - 1))
      as (final & Hfinal & _ & _ & Hacc); [lia..|].
    exists final. split; [done|]. lia.
Qed.

(** C8: [chain[0]] is the initial state verbatim: it is written before the
    loop, by [initialise], which evaluates no density, draws nothing and
    counts no acceptance, and no pass of the loop overwrites it. *)
Theorem initial_state_kept (initial_state : State) (n_mc : nat)
  (g : RandomSource) :
  (1 <= n_mc)%nat ->
  exists s0 final,
    initialise initial_state n_mc g = Some s0 /\
    markov_chain s0 !! 0%nat = Some initial_state /\
    acceptances s0 = 0%nat /\
    random_state s0 = g /\
    ratio_warnings s0 = [] /\
    sampler initial_state n_mc g = Some final /\
    markov_chain final !! 0%nat = Some initial_state.
Proof.
  intros Hn.
  destruct (state_at_invariant initial_state n_mc g (n_mc - 1))
    as (final & Hfinal & _ & H0 & _); [lia..|].
  eexists _, final. rewrite initialise_Some by done.
  split; [reflexivity|]. split.
  - simpl. apply list_lookup_insert_eq. unfold zeros.
    rewrite length_replicate. lia.
  - by repeat split.
Qed.

(** C10: in a step where the current density is a positive number and the
    candidate's density is at least as large (so [r >= 1]), the candidate
    is accepted whatever the uniform draw [u] of [[0, 1)]: it becomes
    [chain[i+1]] and the counter grows by one. *)
Theorem uphill_candidate_accepted (initial_state : State) (n_mc : nat)
  (g : RandomSource) (i : nat) (s : LoopState RandomSource) (current : State)
  (noise : Noise) (g1 g2 : RandomSource) (u a b : R) :
  (i + 1 < n_mc)%nat ->
  at_step initial_state n_mc g i = Some s ->
  markov_chain s !! i = Some current ->
  draw_noise (random_state s) = (noise, g1) ->
  draw_rand g1 = (Fin u, g2) ->
  0 <= u < 1 ->
  target_density current = Fin b ->
  target_density (propose current noise) = Fin a ->
  0 < b -> b <= a ->
  exists final s',
    sampler initial_state n_mc g = Some final /\
    at_step initial_state n_mc g (i + 1) = Some s' /\
    markov_chain final !! i = Some current /\
    markov_chain final !! (i + 1)%nat = Some (propose current noise) /\
    acceptances s' = (acceptances s + 1)%nat.
Proof.
  intros Hi Hs Hcur Hn Hr Hu Hb Ha Hpos Hle.
  destruct (pass_of_run initial_state n_mc g i Hi)
    as (final & s1 & s' & Hfinal & Hs1 & Hs' & Hbody & Hrow & Hnext).
  assert (s1 = s) as -> by congruence.
  destruct (loop_body_inv _ _ _ Hbody)
    as (c & z & h1 & rand & h2 & Hc & Hz & Hrand & Hlt & _ & _ & Hif).
  assert (c = current) as -> by congruence.
  assert (z = noise /\ h1 = g1) as [-> ->] by (split; congruence).
  assert (rand = Fin u) as -> by congruence.
  rewrite Ha, Hb, ratio_at_least_one in Hif by lra.
  destruct Hif as [Hchain Hacc].
  exists final, s'. repeat (split; [first [done | congruence]|]).
  split; [|done]. rewrite Hnext, Hchain. by apply list_lookup_insert_eq.
Qed.

(** C2, as the code has it: the ratio's division is not guarded.  In a
    step whose current state has density zero the division is carried out
    all the same, without an exception.  Against a candidate of density
    zero it is [0 / 0]: an "invalid value" warning, a NaN ratio, and the
    step repeats the current state.  Against a candidate of positive
    density it is a division by zero: a "divide by zero" warning, an
    infinite ratio, and the candidate is accepted whatever the uniform
    draw. *)
Theorem zero_density_step_divides (initial_state : State) (n_mc : nat)
  (g : RandomSource) (i : nat) (s : LoopState RandomSource) (current : State)
  (noise : Noise) (g1 g2 : RandomSource) (u a : R) :
  (i + 1 < n_mc)%nat ->
  at_step initial_state n_mc g i = Some s ->
  markov_chain s !! i = Some current ->
  draw_noise (random_state s) = (noise, g1) ->
  draw_rand g1 = (Fin u, g2) ->
  target_density current = Fin 0 ->
  target_density (propose current noise) = Fin a ->
  0 <= a ->
  exists final s',
    sampler initial_state n_mc g = Some final /\
    at_step initial_state n_mc g (i + 1) = Some s' /\
    (a = 0 ->
       ratio_warnings s' = ratio_warnings s ++ [InvalidValue] /\
       markov_chain final !! (i + 1)%nat = Some current /\
       acceptances s' = acceptances s) /\
    (0 < a ->
       ratio_warnings s' = ratio_warnings s ++ [DivideByZero] /\
       markov_chain final !! (i + 1)%nat = Some (propose current noise) /\
       acceptances s' = (acceptances s + 1)%nat).
Proof.
  intros Hi Hs Hcur Hn Hr Hzero Ha Hnonneg.
  destruct (pass_of_run initial_state n_mc g i Hi)
    as (final & s1 & s' & Hfinal & Hs1 & Hs' & Hbody & Hrow & Hnext).
  assert (s1 = s) as -> by congruence.
  destruct (loop_body_inv _ _ _ Hbody)
    as (c & z & h1 & rand & h2 & Hc & Hz & Hrand & Hlt & _ & Hwarn & Hif).
  assert (c = current) as -> by congruence.
  assert (z = noise /\ h1 = g1) as [-> ->] by (split; congruence).
  assert (rand = Fin u) as -> by congruence.
  rewrite Ha, Hzero in Hif, Hwarn.
  exists final, s'. repeat (split; [done|]). split.
  - intros ->. destruct zero_over_zero as [Hq Hw].
    rewrite Hq in Hif. rewrite Hw in Hwarn. simpl in Hif.
    destruct Hif as [Hchain Hacc]. repeat split; [done| |done].
    rewrite Hnext, Hchain. by apply list_lookup_insert_eq.
  - intros Hpos. destruct (positive_over_zero a Hpos) as [Hq Hw].
    rewrite Hq in Hif. rewrite Hw in Hwarn. simpl in Hif.
    destruct Hif as [Hchain Hacc]. repeat split; [done| |done].
    rewrite Hnext, Hchain. by apply list_lookup_insert_eq.
Qed.

End LoopFacts.

(** ** The reported acceptance ratio *)

(** C7: the cell of [mcmc_knownvariance.ipynb] ends with the ratio
    [acceptances / n_mc]: the counter over the configured chain length.
    The loop makes [n_mc - 1] proposals, and as soon as one was accepted the
    reported ratio differs from [acceptances / (n_mc - 1)]. *)
Theorem acceptance_ratio_over_chain_length {RandomSource : Type}
  (draw_rand : RandomSource -> float64 * RandomSource)
  (pdf : State -> float64) (initial_state : State) (n_mc : nat)
  (draw_noise : RandomSource -> State * RandomSource) (g : RandomSource) :
  (1 <= n_mc)%nat ->
  exists final,
    run draw_noise draw_rand pdf row_add initial_state n_mc g = Some final /\
    mcmc_knownvariance draw_rand pdf initial_state n_mc draw_noise g =
      Some (final, Fin (INR (acceptances final) / INR n_mc)) /\
    ((0 < acceptances final)%nat ->
     INR (acceptances final) / INR n_mc <>
     INR (acceptances final) / INR (n_mc - 1)).
Proof.
  intros Hn.
  destruct (state_at_invariant draw_noise draw_rand pdf row_add
              initial_state n_mc g (n_mc - 1))
    as (final & Hfinal & _ & _ & Hacc); [lia..|].
  exists final. split; [exact Hfinal|]. split.
  - unfold mcmc_knownvariance, run. rewrite Hfinal. simpl.
    unfold acceptance_ratio.
    destruct (decide (n_mc = 0%nat)); [lia|done].
  - intros Hpos Heq.
    assert (H1 : 1 <= INR (acceptances final)).
    { change 1 with (INR 1). apply le_INR. lia. }
    assert (H2 : INR (acceptances final) <= INR (n_mc - 1)) by by apply le_INR.
    assert (H3 : INR n_mc = INR (n_mc - 1) + 1).
    { rewrite minus_INR by lia. simpl. lra. }
    set (a := INR (acceptances final)) in *.
    set (m := INR (n_mc - 1)) in *.
    rewrite H3 in Heq.
    assert (Hm : 0 < m) by lra.
    apply (f_equal (fun x => x * (m * (m + 1)))) in Heq.
    field_simplify in Heq; [|lra..]. nra.
Qed.

(** ** The cells as the notebooks run them *)

(** Both cells return: a chain of 1000 rows that starts at the first guess,
    with at most 999 acceptances. *)
Lemma unknownvariance_cell_returns {RandomSource : Type}
  (draw_rand : RandomSource -> float64 * RandomSource)
  (draw_randn : RandomSource -> State * RandomSource) (g : RandomSource) :
  exists final,
    unknownvariance_cell draw_rand draw_randn g = Some final /\
    length (markov_chain final) = 1000%nat /\
    markov_chain final !! 0%nat = Some (Fin 3.2, Fin 8.6) /\
    (acceptances final <= 999)%nat.
Proof.
  unfold unknownvariance_cell, mcmc_unknownvariance, run.
  apply (state_at_invariant draw_randn draw_rand
           (posterior_space_2 meanx sigmax Nx) unknownvariance_propose
           (Fin 3.2, Fin 8.6) 1000 g (1000 - 1)); lia.
Qed.

Lemma knownvariance_cell_returns {RandomSource : Type}
  (draw_rand : RandomSource -> float64 * RandomSource)
  (pdf : State -> float64)
  (draw_noise : RandomSource -> State * RandomSource) (g : RandomSource) :
  exists final,
    knownvariance_cell draw_rand pdf draw_noise g =
      Some (final, Fin (INR (acceptances final) / INR 1000)) /\
    length (markov_chain final) = 1000%nat /\
    markov_chain final !! 0%nat = Some (Fin 9.234, Fin 0.567) /\
    (acceptances final <= 999)%nat.
Proof.
  destruct (state_at_invariant draw_noise draw_rand pdf row_add
              (Fin 9.234, Fin 0.567) 1000 g (1000 - 1))
    as (final & Hfinal & Hrest); [lia..|].
  exists final. split; [|exact Hrest].
  unfold knownvariance_cell, mcmc_knownvariance, run. rewrite Hfinal.
  cbn [mbind option_bind]. unfold acceptance_ratio.
  destruct (decide (1000 = 0)%nat); [lia|]. reflexivity.
Qed.

(** ** Determinism under fixed randomness *)

Section Determinism.

(** Two random sources, possibly of different make. *)
Context {Source1 Source2 Noise : Type}.
Variable draw_noise1 : Source1 -> Noise * Source1.
Variable draw_rand1 : Source1 -> float64 * Source1.
Variable draw_noise2 : Source2 -> Noise * Source2.
Variable draw_rand2 : Source2 -> float64 * Source2.
Variable target_density : State -> float64.
Variable propose : State -> Noise -> State.

Local Abbreviation draws1 := (draws draw_noise1 draw_rand1).
Local Abbreviation draws2 := (draws draw_noise2 draw_rand2).
Local Abbreviation loop1 := (loop draw_noise1 draw_rand1 target_density propose).
Local Abbreviation loop2 := (loop draw_noise2 draw_rand2 target_density propose).

(** From equal variables, passes fed the same draws end in equal
    variables. *)
Lemma loop_same_draws (k : nat) :
  forall (a : nat) (s1 : LoopState Source1) (s2 : LoopState Source2),
    markov_chain s1 = markov_chain s2 ->
    acceptances s1 = acceptances s2 ->
    ratio_warnings s1 = ratio_warnings s2 ->
    draws1 k (random_state s1) = draws2 k (random_state s2) ->
    (a + k < length (markov_chain s1))%nat ->
    exists t1 t2,
      loop1 (seq a k) s1 = Some t1 /\ loop2 (seq a k) s2 = Some t2 /\
      markov_chain t1 = markov_chain t2 /\
      acceptances t1 = acceptances t2 /\
      ratio_warnings t1 = ratio_warnings t2.
Proof.
  induction k as [|k IH]; intros a s1 s2 Hc Ha Hw Hd Hlen.
  - exists s1, s2. by repeat split.
  - destruct (loop_body_total draw_noise1 draw_rand1 target_density propose
                a s1) as [t1 Ht1]; [lia|].
    destruct (loop_body_total draw_noise2 draw_rand2 target_density propose
                a s2) as [t2 Ht2]; [rewrite <- Hc; lia|].
    simpl. rewrite Ht1, Ht2. simpl.
    pose proof (loop_body_length _ _ _ _ _ _ _ Ht1) as Hlen1.
    apply loop_body_inv in Ht1
      as (c1 & z1 & h1 & r1 & h1' & Hc1 & Hz1 & Hr1 & _ & Hg1 & Hw1 & Hif1).
    apply loop_body_inv in Ht2
      as (c2 & z2 & h2 & r2 & h2' & Hc2 & Hz2 & Hr2 & _ & Hg2 & Hw2 & Hif2).
    simpl in Hd. rewrite Hz1, Hr1, Hz2, Hr2 in Hd.
    injection Hd as -> -> Hd.
    assert (c1 = c2) as -> by congruence.
    apply IH.
    + destruct (greater _ r2); destruct Hif1 as [-> _], Hif2 as [-> _];
        by rewrite Hc.
    + destruct (greater _ r2); destruct Hif1 as [_ ->], Hif2 as [_ ->];
        by rewrite Ha.
    + by rewrite Hw1, Hw2, Hw.
    + by rewrite Hg1, Hg2.
    + rewrite Hlen1. lia.
Qed.

(** C9: two runs on the same inputs whose random sources deliver the same
    sequence of noise and uniform draws return the same chain and the same
    acceptance count. *)
Theorem same_draws_same_run (initial_state : State) (n_mc : nat)
  (g1 : Source1) (g2 : Source2) :
  (1 <= n_mc)%nat ->
  draws1 (n_mc - 1) g1 = draws2 (n_mc - 1) g2 ->
  exists final1 final2,
    run draw_noise1 draw_rand1 target_density propose initial_state n_mc g1
      = Some final1 /\
    run draw_noise2 draw_rand2 target_density propose initial_state n_mc g2
      = Some final2 /\
    markov_chain final1 = markov_chain final2 /\
    acceptances final1 = acceptances final2.
Proof.
  intros Hn Hd. unfold run, state_at.
  rewrite !initialise_Some by done. simpl.
  edestruct (loop_same_draws (n_mc - 1) 0%nat) as (t1 & t2 & H1 & H2 & H);
    [..| exists t1, t2; rewrite H1, H2; split; [done|]; split; [done|];
         destruct H as (? & ? & ?); by split].
  - reflexivity.
  - reflexivity.
  - reflexivity.
  - exact Hd.
  - simpl. rewrite length_insert. unfold zeros. rewrite length_replicate. lia.
Qed.

End Determinism.

(** ** The two posterior functions *)

(** Integer arithmetic under [IZR] moved to the reals, for [lra]. *)
Ltac push_IZR := rewrite ?plus_IZR, ?minus_IZR, ?opp_IZR.

Lemma Int_part_IZR (z : Z) : Int_part (IZR z) = z.
Proof. symmetry. apply Int_part_spec. lra. Qed.

Lemma is_integer_IZR (z : Z) : is_integer (IZR z) = true.
Proof.
  unfold is_integer. rewrite Int_part_IZR. by destruct (Req_dec_T _ _).
Qed.

Lemma greater_zero_negative (s : R) : s <= 0 -> greater (Fin s) (Fin 0) = false.
Proof. intros Hs. simpl. destruct (Rlt_dec 0 s); [lra|done]. Qed.

Lemma power_positive (s y : R) : 0 < s -> power (Fin s) y = Fin (Rpower s y).
Proof.
  intros Hs. unfold power. destruct (Req_dec_T y 0) as [->|_].
  - by rewrite Rpower_O.
  - by destruct (Rlt_dec 0 s).
Qed.

Lemma power_zero_negative (y : R) : y < 0 -> power (Fin 0) y = PInf.
Proof.
  intros Hy. unfold power. destruct (Req_dec_T y 0); [lra|].
  destruct (Rlt_dec 0 0); [lra|]. destruct (Req_dec_T 0 0); [|done].
  destruct (Rlt_dec 0 y); [lra|done].
Qed.

(** The sum [p2 + p3] of both functions, on finite arguments. *)
Lemma p2_plus_p3 (m sg mu : R) (N : Z) :
  add (multiply (Fin (IZR (N - 1))) (square (Fin sg)))
      (multiply (Fin (IZR N)) (square (subtract (Fin m) (Fin mu))))
  = Fin (IZR (N - 1) * (sg * sg) + IZR N * ((m + - mu) * (m + - mu))).
Proof. reflexivity. Qed.

(** Inside the support both functions are the product of their power term
    and their exponential term. *)
Lemma posterior_space_positive (m sg mu s : R) (N : Z) :
  0 < s ->
  posterior_space (Fin m) (Fin sg) N (Fin mu, Fin s) =
  Fin (1 * Rpower s (- (IZR N + 2) / 2) *
       Rtrigo_def.exp (-1 / (2 * s) *
            (IZR (N - 1) * (sg * sg) + IZR N * ((m + - mu) * (m + - mu))))).
Proof.
  intros Hs. unfold posterior_space. cbn [fst snd].
  rewrite p2_plus_p3, power_positive by done.
  change (multiply (Fin 2) (Fin s)) with (Fin (2 * s)).
  rewrite true_divide_Fin by lra.
  rewrite (greater_Fin s 0) by done. reflexivity.
Qed.

Lemma posterior_space_2_positive (m sg mu s : R) (N : Z) :
  0 < s ->
  posterior_space_2 (Fin m) (Fin sg) N (Fin mu, Fin s) =
  Fin (1 * Rpower s (IZR (- N + 2)) *
       Rtrigo_def.exp (-1 *
            (IZR (N - 1) * (sg * sg) + IZR N * ((m + - mu) * (m + - mu)))
            / (2 * (s * s)))).
Proof.
  intros Hs. unfold posterior_space_2. cbn [fst snd].
  rewrite p2_plus_p3, power_positive by done.
  change (multiply (Fin 2) (square (Fin s))) with (Fin (2 * (s * s))).
  change (multiply (Fin (-1)) (Fin ?x)) with (Fin (-1 * x)).
  rewrite true_divide_Fin by nra.
  rewrite (greater_Fin s 0) by done. reflexivity.
Qed.

(** Below the support, with finite arguments and no overflow (which this
    model of [float64] leaves out), the indicator factor makes
    [posterior_space_2] zero. *)
Lemma posterior_space_2_negative (m sg mu s : R) (N : Z) :
  s < 0 -> posterior_space_2 (Fin m) (Fin sg) N (Fin mu, Fin s) = Fin 0.
Proof.
  intros Hs. unfold posterior_space_2. cbn [fst snd].
  rewrite p2_plus_p3, greater_zero_negative by lra.
  change (multiply (Fin 2) (square (Fin s))) with (Fin (2 * (s * s))).
  change (multiply (Fin (-1)) (Fin ?x)) with (Fin (-1 * x)).
  rewrite true_divide_Fin by nra.
  assert (Hp : exists p, power (Fin s) (IZR (- N + 2)) = Fin p).
  { unfold power. destruct (Req_dec_T _ 0); [by eexists|].
    destruct (Rlt_dec 0 s); [lra|]. destruct (Req_dec_T s 0); [lra|].
    rewrite is_integer_IZR. by eexists. }
  destruct Hp as [p ->]. simpl. f_equal. ring.
Qed.

(** The indicator factor: [False * p1 * p5] is zero exactly when both
    terms are finite; an infinite or NaN term turns the product into NaN. *)
Lemma indicator_product (p1 p5 : float64) :
  multiply (multiply (of_bool false) p1) p5 =
  if is_finite p1 && is_finite p5 then Fin 0 else NaN.
Proof.
  destruct p1 as [x| | |], p5 as [y| | |]; simpl;
    repeat match goal with
           | |- context [Req_dec_T ?a ?b] => destruct (Req_dec_T a b); try lra
           end; try reflexivity.
  f_equal. ring.
Qed.

(** C3: at the edge of the support the densities are not zero.  With the
    notebook's [meanx], [sigmax], [Nx] and the state [[3.2, 0.0]], the power
    term is [inf] (zero to a negative power) and the indicator factor
    [(curr_param[1] > 0)], which is 0, is multiplied with it: both
    functions return NaN. *)
Theorem posterior_at_zero_is_nan :
  posterior_space_2 meanx sigmax Nx (Fin 3.2, Fin 0) = NaN /\
  posterior_space meanx sigmax Nx (Fin 3.2, Fin 0) = NaN.
Proof.
  unfold meanx, sigmax, Nx. split.
  - unfold posterior_space_2. cbn [fst snd].
    rewrite power_zero_negative by (push_IZR; lra).
    rewrite greater_zero_negative by lra. simpl.
    by destruct (Req_dec_T 0 0).
  - unfold posterior_space. cbn [fst snd].
    rewrite power_zero_negative by lra.
    rewrite greater_zero_negative by lra. simpl.
    by destruct (Req_dec_T 0 0).
Qed.

(** C4: the two functions are not the same function.  With the notebook's
    [meanx], [sigmax], [Nx] and the state [[5, 2]], [posterior_space] gives
    [2^-51 * exp(-99)] and [posterior_space_2] gives [2^-98 * exp(-49.5)],
    two different numbers. *)
Theorem posteriors_differ :
  posterior_space meanx sigmax Nx (Fin 5, Fin 2) =
    Fin (Rpower 2 (-51) * Rtrigo_def.exp (-99)) /\
  posterior_space_2 meanx sigmax Nx (Fin 5, Fin 2) =
    Fin (Rpower 2 (-98) * Rtrigo_def.exp (-99 / 2)) /\
  posterior_space meanx sigmax Nx (Fin 5, Fin 2) <>
  posterior_space_2 meanx sigmax Nx (Fin 5, Fin 2).
Proof.
  assert (E1 : posterior_space meanx sigmax Nx (Fin 5, Fin 2) =
               Fin (Rpower 2 (-51) * Rtrigo_def.exp (-99))).
  { unfold meanx, sigmax, Nx. rewrite posterior_space_positive by lra.
    push_IZR. rewrite Rmult_1_l. f_equal. f_equal; f_equal; lra. }
  assert (E2 : posterior_space_2 meanx sigmax Nx (Fin 5, Fin 2) =
               Fin (Rpower 2 (-98) * Rtrigo_def.exp (-99 / 2))).
  { unfold meanx, sigmax, Nx. rewrite posterior_space_2_positive by lra.
    push_IZR. rewrite Rmult_1_l. f_equal. f_equal; f_equal; lra. }
  rewrite E1, E2. split; [done|]. split; [done|].
  intros [= H].
  (* equality would force exp(-99/2) = 2^-47, but 2 < e *)
  set (x := Rtrigo_def.exp (-99 / 2)) in *.
  assert (Hx : 0 < x) by apply exp_pos.
  assert (Hxx : Rtrigo_def.exp (-99) = x * x).
  { unfold x. rewrite <- exp_plus. f_equal. lra. }
  assert (H98 : Rpower 2 (-51) = Rpower 2 (-98) * Rpower 2 47).
  { rewrite <- Rpower_plus. f_equal. lra. }
  assert (Hp : 0 < Rpower 2 (-98)) by apply exp_pos.
  rewrite Hxx, H98 in H.
  assert (Hx47 : Rpower 2 47 * x = 1).
  { apply Rmult_eq_reg_l with (Rpower 2 (-98) * x); [|nra].
    rewrite Rmult_1_r.
    transitivity (Rpower 2 (-98) * Rpower 2 47 * (x * x)); [ring|exact H]. }
  assert (Hlt : Rpower 2 47 * x < 1).
  { unfold x, Rpower. rewrite <- exp_plus, <- exp_0.
    apply exp_increasing.
    assert (ln 2 < 1).
    { rewrite <- ln_exp. apply ln_increasing; [lra|].
      pose proof (exp_ineq1 1). lra. }
    lra. }
  lra.
Qed.

(** How the two functions are related.  At [curr_param[1] = 1] they take
    the same value.  Elsewhere in the support [posterior_space_2] reads
    [curr_param[1]] as the standard deviation [s] where [posterior_space]
    reads it as the variance: [posterior_space_2] at [(mu, s)] is
    [posterior_space] at [(mu, s^2)] times a positive factor that depends
    on [N] and [s] only (the exponential terms are the same, the power
    terms are not). *)
Lemma posteriors_related_by_change_of_variable (N : Z) (s : R) :
  0 < s ->
  (forall m sg mu,
     posterior_space (Fin m) (Fin sg) N (Fin mu, Fin 1) =
     posterior_space_2 (Fin m) (Fin sg) N (Fin mu, Fin 1)) /\
  exists c, 0 < c /\
    forall m sg mu,
      posterior_space_2 (Fin m) (Fin sg) N (Fin mu, Fin s) =
      multiply (Fin c) (posterior_space (Fin m) (Fin sg) N (Fin mu, Fin (s * s))).
Proof.
  intros Hs. split.
  - intros m sg mu.
    rewrite posterior_space_positive, posterior_space_2_positive by lra.
    unfold Rpower. rewrite ln_1, !Rmult_0_r. do 2 f_equal. f_equal. field.
  - assert (Hq : 0 < Rpower (s * s) (- (IZR N + 2) / 2)) by apply exp_pos.
    assert (Hp : 0 < Rpower s (IZR (- N + 2))) by apply exp_pos.
    exists (Rpower s (IZR (- N + 2)) / Rpower (s * s) (- (IZR N + 2) / 2)).
    split; [by apply Rdiv_lt_0_compat|].
    intros m sg mu.
    rewrite posterior_space_positive, posterior_space_2_positive by nra.
    simpl. f_equal.
    replace (-1 / (2 * (s * s)) *
             (IZR (N - 1) * (sg * sg) + IZR N * ((m + - mu) * (m + - mu))))
      with (-1 * (IZR (N - 1) * (sg * sg) + IZR N * ((m + - mu) * (m + - mu)))
            / (2 * (s * s))) by (field; lra).
    field. lra.
Qed.

(** ** Worked runs *)

(** The candidate reached from [[5, -1]] with the noise [[0, 20]]. *)
Lemma propose_from_below_support :
  unknownvariance_propose (Fin 5, Fin (-1)) (Fin 0, Fin 20) = (Fin 5, Fin 1).
Proof.
  unfold unknownvariance_propose, row_add, dot, cholesky, tau_mu, tau_sigma.
  simpl. f_equal; f_equal; lra.
Qed.

(** C2, a run that divides by a zero density: [mcmc_unknownvariance] from
    the first guess [[5, -1]], outside the support, where
    [posterior_space_2] is 0, with [n_mc = 2], the noise [[0, 20]] and the
    uniform draw [0.5].  The candidate [[5, 1]] has a positive density, the
    ratio is a division by zero that numpy reports as a warning, and its
    result [inf] makes the step accept the candidate. *)
Lemma zero_density_division_is_performed :
  posterior_space_2 meanx sigmax Nx (Fin 5, Fin (-1)) = Fin 0 /\
  exists final,
    mcmc_unknownvariance (constant_rand (Fin 0.5)) (Fin 5, Fin (-1)) 2
      (constant_noise (Fin 0, Fin 20)) tt = Some final /\
    ratio_warnings final = [DivideByZero] /\
    markov_chain final = [(Fin 5, Fin (-1)); (Fin 5, Fin 1)] /\
    acceptances final = 1%nat.
Proof.
  assert (H0 : posterior_space_2 meanx sigmax Nx (Fin 5, Fin (-1)) = Fin 0).
  { apply posterior_space_2_negative. lra. }
  split; [exact H0|].
  unfold mcmc_unknownvariance, run, state_at.
  rewrite initialise_Some by lia.
  cbn [mbind option_bind Nat.sub seq loop]. unfold loop_body.
  cbn [markov_chain random_state acceptances ratio_warnings zeros replicate
       lookup list_lookup insert list_insert mbind option_bind constant_noise
       constant_rand].
  rewrite propose_from_below_support, H0.
  unfold meanx, sigmax, Nx. rewrite posterior_space_2_positive by lra.
  match goal with
  | |- context [true_divide (Fin ?a) (Fin 0)] =>
      assert (Ha : 0 < a) by
        (rewrite Rmult_1_l; apply Rmult_lt_0_compat; apply exp_pos);
      destruct (positive_over_zero a Ha) as [-> ->]
  end.
  cbn. eexists. split; [reflexivity|]. done.
Qed.

(** A run of three states under a flat density with the scripted source:
    the hypotheses of the loop's theorems hold there. *)
Lemma step_accepts_or_replays_witness :
  (1 + 1 < 3)%nat /\
  exists final s s' current noise g1 rand g2,
    run (constant_noise (Fin 1, Fin 1)) (constant_rand (Fin 0.5))
        support_indicator row_add (Fin 9.234, Fin 0.567) 3 tt = Some final /\
    state_at (constant_noise (Fin 1, Fin 1)) (constant_rand (Fin 0.5))
        support_indicator row_add (Fin 9.234, Fin 0.567) 3 tt 1 = Some s /\
    state_at (constant_noise (Fin 1, Fin 1)) (constant_rand (Fin 0.5))
        support_indicator row_add (Fin 9.234, Fin 0.567) 3 tt (1 + 1) = Some s' /\
    markov_chain final !! 1%nat = Some current /\
    constant_noise (Fin 1, Fin 1) (random_state s) = (noise, g1) /\
    constant_rand (Fin 0.5) g1 = (rand, g2) /\
    let candidate := row_add current noise in
    let r := true_divide (support_indicator candidate)
                         (support_indicator current) in
    if greater r rand
    then markov_chain final !! (1 + 1)%nat = Some candidate /\
         acceptances s' = (acceptances s + 1)%nat
    else markov_chain final !! (1 + 1)%nat = Some current /\
         acceptances s' = acceptances s.
Proof.
  split; [lia|].
  apply (step_accepts_or_replays (constant_noise (Fin 1, Fin 1))
           (constant_rand (Fin 0.5)) support_indicator row_add
           (Fin 9.234, Fin 0.567) 3 tt 1).
  lia.
Defined.

Lemma acceptance_bound_witness :
  (1 <= 3)%nat /\
  ((forall k, (k <= 3 - 1)%nat ->
     exists s,
       state_at (constant_noise (Fin 1, Fin 1)) (constant_rand (Fin 0.5))
         support_indicator row_add (Fin 9.234, Fin 0.567) 3 tt k = Some s /\
       (0 <= acceptances s <= k)%nat /\
       (acceptances s <= 3 - 1)%nat) /\
   (forall k, (k + 1 <= 3 - 1)%nat ->
     exists s s',
       state_at (constant_noise (Fin 1, Fin 1)) (constant_rand (Fin 0.5))
         support_indicator row_add (Fin 9.234, Fin 0.567) 3 tt k = Some s /\
       state_at (constant_noise (Fin 1, Fin 1)) (constant_rand (Fin 0.5))
         support_indicator row_add (Fin 9.234, Fin 0.567) 3 tt (k + 1) = Some s' /\
       (acceptances s <= acceptances s' <= acceptances s + 1)%nat) /\
   exists final,
     run (constant_noise (Fin 1, Fin 1)) (constant_rand (Fin 0.5))
         support_indicator row_add (Fin 9.234, Fin 0.567) 3 tt = Some final /\
     (0 <= acceptances final <= 3 - 1)%nat).
Proof.
  split; [lia|].
  apply (acceptance_bound (constant_noise (Fin 1, Fin 1))
           (constant_rand (Fin 0.5)) support_indicator row_add
           (Fin 9.234, Fin 0.567) 3 tt).
  lia.
Defined.

Lemma initial_state_kept_witness :
  (1 <= 3)%nat /\
  exists s0 final,
    initialise (Fin 9.234, Fin 0.567) 3 tt = Some s0 /\
    markov_chain s0 !! 0%nat = Some (Fin 9.234, Fin 0.567) /\
    acceptances s0 = 0%nat /\
    random_state s0 = tt /\
    ratio_warnings s0 = [] /\
    run (constant_noise (Fin 1, Fin 1)) (constant_rand (Fin 0.5))
        support_indicator row_add (Fin 9.234, Fin 0.567) 3 tt = Some final /\
    markov_chain final !! 0%nat = Some (Fin 9.234, Fin 0.567).
Proof.
  split; [lia|].
  apply (initial_state_kept (constant_noise (Fin 1, Fin 1))
           (constant_rand (Fin 0.5)) support_indicator row_add
           (Fin 9.234, Fin 0.567) 3 tt).
  lia.
Defined.

Lemma acceptance_ratio_over_chain_length_witness :
  (1 <= 3)%nat /\
  exists final,
    run (constant_noise (Fin 1, Fin 1)) (constant_rand (Fin 0.5))
        support_indicator row_add (Fin 9.234, Fin 0.567) 3 tt = Some final /\
    mcmc_knownvariance (constant_rand (Fin 0.5)) support_indicator
        (Fin 9.234, Fin 0.567) 3 (constant_noise (Fin 1, Fin 1)) tt =
      Some (final, Fin (INR (acceptances final) / INR 3)) /\
    ((0 < acceptances final)%nat ->
     INR (acceptances final) / INR 3 <>
     INR (acceptances final) / INR (3 - 1)).
Proof.
  split; [lia|].
  apply (acceptance_ratio_over_chain_length (constant_rand (Fin 0.5))
           support_indicator (Fin 9.234, Fin 0.567) 3
           (constant_noise (Fin 1, Fin 1)) tt).
  lia.
Defined.

(** The stateless source and the counting source deliver the same draws. *)
Lemma same_draws_same_run_witness :
  (1 <= 3)%nat /\
  draws (constant_noise (Fin 1, Fin 1)) (constant_rand (Fin 0.5)) (3 - 1) tt =
  draws (counting_noise (Fin 1, Fin 1)) (counting_rand (Fin 0.5)) (3 - 1) 0%nat /\
  exists final1 final2,
    run (constant_noise (Fin 1, Fin 1)) (constant_rand (Fin 0.5))
        support_indicator row_add (Fin 9.234, Fin 0.567) 3 tt = Some final1 /\
    run (counting_noise (Fin 1, Fin 1)) (counting_rand (Fin 0.5))
        support_indicator row_add (Fin 9.234, Fin 0.567) 3 0%nat = Some final2 /\
    markov_chain final1 = markov_chain final2 /\
    acceptances final1 = acceptances final2.
Proof.
  split; [lia|]. split; [reflexivity|].
  apply (same_draws_same_run (constant_noise (Fin 1, Fin 1))
           (constant_rand (Fin 0.5)) (counting_noise (Fin 1, Fin 1))
           (counting_rand (Fin 0.5)) support_indicator row_add
           (Fin 9.234, Fin 0.567) 3 tt 0%nat); [lia | reflexivity].
Defined.

Lemma support_indicator_inside (x y : R) :
  0 < y -> support_indicator (Fin x, Fin y) = Fin 1.
Proof. intros Hy. unfold support_indicator. simpl. by destruct (Rlt_dec 0 y). Qed.

Lemma support_indicator_outside (x y : R) :
  y <= 0 -> support_indicator (Fin x, Fin y) = Fin 0.
Proof.
  intros Hy. unfold support_indicator. cbn [snd].
  by rewrite greater_zero_negative.
Qed.

(** A first step between two states of equal positive density. *)
Lemma uphill_candidate_accepted_witness :
  let s0 := MkLoopState [(Fin 9.234, Fin 0.567); (Fin 0, Fin 0); (Fin 0, Fin 0)]
                        0 tt [] in
  (0 + 1 < 3)%nat /\
  state_at (constant_noise (Fin 1, Fin 1)) (constant_rand (Fin 0.5))
    support_indicator row_add (Fin 9.234, Fin 0.567) 3 tt 0 = Some s0 /\
  markov_chain s0 !! 0%nat = Some (Fin 9.234, Fin 0.567) /\
  0 <= 0.5 < 1 /\
  support_indicator (Fin 9.234, Fin 0.567) = Fin 1 /\
  support_indicator (row_add (Fin 9.234, Fin 0.567) (Fin 1, Fin 1)) = Fin 1 /\
  0 < 1 /\ 1 <= 1 /\
  exists final s',
    run (constant_noise (Fin 1, Fin 1)) (constant_rand (Fin 0.5))
        support_indicator row_add (Fin 9.234, Fin 0.567) 3 tt = Some final /\
    state_at (constant_noise (Fin 1, Fin 1)) (constant_rand (Fin 0.5))
        support_indicator row_add (Fin 9.234, Fin 0.567) 3 tt (0 + 1) = Some s' /\
    markov_chain final !! 0%nat = Some (Fin 9.234, Fin 0.567) /\
    markov_chain final !! (0 + 1)%nat =
      Some (row_add (Fin 9.234, Fin 0.567) (Fin 1, Fin 1)) /\
    acceptances s' = (acceptances s0 + 1)%nat.
Proof.
  intros s0.
  assert (H1 : support_indicator (Fin 9.234, Fin 0.567) = Fin 1)
    by (apply support_indicator_inside; lra).
  assert (H2 : support_indicator (row_add (Fin 9.234, Fin 0.567) (Fin 1, Fin 1))
               = Fin 1)
    by (apply support_indicator_inside; lra).
  split; [lia|]. split; [reflexivity|]. split; [reflexivity|].
  split; [lra|]. split; [exact H1|]. split; [exact H2|].
  split; [lra|]. split; [lra|].
  apply (uphill_candidate_accepted (constant_noise (Fin 1, Fin 1))
           (constant_rand (Fin 0.5)) support_indicator row_add
           (Fin 9.234, Fin 0.567) 3 tt 0 s0 (Fin 9.234, Fin 0.567)
           (Fin 1, Fin 1) tt tt 0.5 1 1);
    [lia | reflexivity | reflexivity | reflexivity | reflexivity | lra
    | exact H1 | exact H2 | lra | lra].
Defined.

(** A first step from a state outside the support towards the inside. *)
Lemma zero_density_step_divides_witness :
  let s0 := MkLoopState [(Fin 5, Fin (-1)); (Fin 0, Fin 0)] 0 tt [] in
  (0 + 1 < 2)%nat /\
  state_at (constant_noise (Fin 0, Fin 2)) (constant_rand (Fin 0.5))
    support_indicator row_add (Fin 5, Fin (-1)) 2 tt 0 = Some s0 /\
  markov_chain s0 !! 0%nat = Some (Fin 5, Fin (-1)) /\
  support_indicator (Fin 5, Fin (-1)) = Fin 0 /\
  support_indicator (row_add (Fin 5, Fin (-1)) (Fin 0, Fin 2)) = Fin 1 /\
  0 <= 1 /\
  exists final s',
    run (constant_noise (Fin 0, Fin 2)) (constant_rand (Fin 0.5))
        support_indicator row_add (Fin 5, Fin (-1)) 2 tt = Some final /\
    state_at (constant_noise (Fin 0, Fin 2)) (constant_rand (Fin 0.5))
        support_indicator row_add (Fin 5, Fin (-1)) 2 tt (0 + 1) = Some s' /\
    (1 = 0 ->
       ratio_warnings s' = ratio_warnings s0 ++ [InvalidValue] /\
       markov_chain final !! (0 + 1)%nat = Some (Fin 5, Fin (-1)) /\
       acceptances s' = acceptances s0) /\
    (0 < 1 ->
       ratio_warnings s' = ratio_warnings s0 ++ [DivideByZero] /\
       markov_chain final !! (0 + 1)%nat =
         Some (row_add (Fin 5, Fin (-1)) (Fin 0, Fin 2)) /\
       acceptances s' = (acceptances s0 + 1)%nat).
Proof.
  intros s0.
  assert (H1 : support_indicator (Fin 5, Fin (-1)) = Fin 0)
    by (apply support_indicator_outside; lra).
  assert (H2 : support_indicator (row_add (Fin 5, Fin (-1)) (Fin 0, Fin 2))
               = Fin 1)
    by (apply support_indicator_inside; lra).
  split; [lia|]. split; [reflexivity|]. split; [reflexivity|].
  split; [exact H1|]. split; [exact H2|]. split; [lra|].
  apply (zero_density_step_divides (constant_noise (Fin 0, Fin 2))
           (constant_rand (Fin 0.5)) support_indicator row_add
           (Fin 5, Fin (-1)) 2 tt 0 s0 (Fin 5, Fin (-1))
           (Fin 0, Fin 2) tt tt 0.5 1);
    [lia | reflexivity | reflexivity | reflexivity | reflexivity
    | exact H1 | exact H2 | lra].
Defined.


(** * Further properties of the loop *)

(** The acceptance test against a current density that is a positive
    number: the division raises no warning, and a candidate that passes the
    test against a non-negative uniform draw has a positive or infinite
    density. *)
Lemma divide_by_positive_quiet (pp pc : float64) :
  positive pc -> divide_warnings pp pc = [].
Proof.
  intros (b & -> & Hb). destruct pp as [a| | |]; simpl; try done.
  destruct (Req_dec_T b 0); [lra|done].
Qed.

Lemma accepted_over_positive (pp pc : float64) (u : R) :
  positive pc -> 0 <= u ->
  greater (true_divide pp pc) (Fin u) = true ->
  positive pp \/ pp = PInf.
Proof.
  intros (b & -> & Hb) Hu. destruct pp as [a| | |]; simpl.
  - destruct (Req_dec_T b 0); [lra|]. simpl.
    destruct (Rlt_dec u (a / b)); [|done].
    intros _. left. exists a. split; [done|].
    apply Rmult_lt_reg_r with (/ b); [by apply Rinv_0_lt_compat|].
    rewrite Rmult_0_l. unfold Rdiv in *. lra.
  - by right.
  - unfold inf_like. destruct (Rlt_dec b 0); [lra|done].
  - done.
Qed.

Lemma nothing_beats_nan (pp : float64) (rand : float64) :
  greater (true_divide pp NaN) rand = false.
Proof. by destruct pp. Qed.

Section LoopInvariants.

Context {RandomSource Noise : Type}.
Variable draw_noise : RandomSource -> Noise * RandomSource.
Variable draw_rand : RandomSource -> float64 * RandomSource.
Variable target_density : State -> float64.
Variable propose : State -> Noise -> State.

Local Abbreviation body := (loop_body draw_noise draw_rand target_density propose).
Local Abbreviation at_step := (state_at draw_noise draw_rand target_density propose).
Local Abbreviation sampler := (run draw_noise draw_rand target_density propose).

(** Induction over the passes of a run: what holds of the variables before
    the loop and is kept by every pass that the run makes holds at every
    step. *)
Lemma state_at_ind (initial_state : State) (n_mc : nat) (g : RandomSource)
  (I : nat -> LoopState RandomSource -> Prop) :
  (1 <= n_mc)%nat ->
  (forall s0, initialise initial_state n_mc g = Some s0 -> I 0%nat s0) ->
  (forall k s s',
     (k + 1 < n_mc)%nat -> at_step initial_state n_mc g k = Some s ->
     I k s -> body k s = Some s' -> I (k + 1)%nat s') ->
  forall k, (k <= n_mc - 1)%nat ->
    exists s, at_step initial_state n_mc g k = Some s /\ I k s.
Proof.
  intros Hn H0 Hstep. induction k as [|k IH]; intros Hk.
  - destruct (state_at_invariant draw_noise draw_rand target_density propose
                initial_state n_mc g 0) as (s & Hs & _); [lia..|].
    exists s. split; [done|]. apply H0.
    unfold state_at in Hs. destruct (initialise _ _ _); [|done].
    simpl in Hs. by injection Hs as ->.
  - destruct IH as (s & Hs & HI); [lia|].
    destruct (state_at_invariant draw_noise draw_rand target_density propose
                initial_state n_mc g (S k)) as (s' & Hs' & _); [lia..|].
    exists s'. split; [done|].
    replace (S k) with (k + 1)%nat by lia. apply (Hstep k s s'); [lia|done..|].
    rewrite state_at_S, Hs in Hs'. exact Hs'.
Qed.

(** The counter never decreases along a run. *)
Lemma state_at_acceptances_mono (initial_state : State) (n_mc : nat)
  (g : RandomSource) (k k' : nat) (s s' : LoopState RandomSource) :
  at_step initial_state n_mc g k = Some s ->
  at_step initial_state n_mc g k' = Some s' ->
  (k <= k')%nat -> (acceptances s <= acceptances s')%nat.
Proof.
  unfold state_at. destruct (initialise _ _ _) as [s0|]; simpl; [|done].
  intros Hs Hs' Hk.
  replace k' with (k + (k' - k))%nat in Hs' by lia.
  rewrite seq_app, loop_app, Hs in Hs'. simpl in Hs'.
  apply loop_acceptances in Hs'. lia.
Qed.

(** Length 0 and length 1: with [n_mc = 0] the write of the first guess
    into the empty array fails ([IndexError]); with [n_mc = 1] the loop makes
    no pass and the cell returns the first guess alone, the counter at 0 and
    the random generator untouched. *)
Theorem run_shortest_chains (initial_state : State) (g : RandomSource) :
  sampler initial_state 0 g = None /\
  sampler initial_state 1 g = Some (MkLoopState [initial_state] 0 g []).
Proof. split; reflexivity. Qed.

(** A positive density is kept along the chain.  If the first guess has a
    density that is a positive number, the density is never [+inf] and the
    uniform draws are non-negative numbers, then every state of the
    returned chain has a density that is a positive number, and the ratio's
    division raises no warning: it never meets a zero divisor. *)
Theorem positive_density_kept (initial_state : State) (n_mc : nat)
  (g : RandomSource) :
  (forall g', exists u, fst (draw_rand g') = Fin u /\ 0 <= u) ->
  (forall x, target_density x <> PInf) ->
  positive (target_density initial_state) ->
  (1 <= n_mc)%nat ->
  exists final,
    sampler initial_state n_mc g = Some final /\
    (forall j, (j < n_mc)%nat ->
       exists row, markov_chain final !! j = Some row /\
                   positive (target_density row)) /\
    ratio_warnings final = [].
Proof.
  intros Hrand Hinf Hinit Hn.
  destruct (state_at_ind initial_state n_mc g
    (fun k s =>
       (forall j, (j <= k)%nat ->
          exists row, markov_chain s !! j = Some row /\
                      positive (target_density row)) /\
       ratio_warnings s = [])) with (k := (n_mc - 1)%nat)
    as (final & Hfinal & Hrows & Hwarn); [done| | |lia|].
  - intros s0. rewrite initialise_Some by done. intros [= <-].
    split; [|done]. intros j Hj. assert (j = 0%nat) as -> by lia.
    exists initial_state. split; [|done]. simpl.
    apply list_lookup_insert_eq. unfold zeros. rewrite length_replicate. lia.
  - intros k s s' Hk _ [Hrows Hwarn] Hbody.
    destruct (loop_body_inv _ _ _ _ _ _ _ Hbody)
      as (cur & noise & g1 & rand & g2 & Hcur & _ & Hr & Hlt & _ & Hw & Hif).
    destruct (Hrows k) as (row & Hrow & Hpos); [lia|].
    assert (row = cur) as -> by congruence.
    destruct (Hrand g1) as (u & Hu & Hu0). rewrite Hr in Hu. simpl in Hu.
    subst rand. split.
    + intros j Hj. destruct (decide (j = k + 1)%nat) as [->|Hne].
      * destruct (greater _ (Fin u)) eqn:Hacc; destruct Hif as [-> _];
          rewrite list_lookup_insert_eq by done.
        -- eexists. split; [done|].
           destruct (accepted_over_positive _ _ _ Hpos Hu0 Hacc) as [?|Hbad];
             [done|]. by apply Hinf in Hbad.
        -- by exists cur.
      * destruct (Hrows j) as (r & Hr' & Hp); [lia|]. exists r. split; [|done].
        destruct (greater _ (Fin u)); destruct Hif as [-> _];
          by rewrite list_lookup_insert_ne.
    + rewrite Hw, Hwarn. by apply divide_by_positive_quiet.
  - exists final. split; [exact Hfinal|]. split; [|done].
    intros j Hj. apply Hrows. lia.
Qed.

(** A chain started where the density is NaN never moves: every ratio is
    NaN, every test [ratio > rand] fails, whatever the draws.  All [n_mc]
    states are the first guess and nothing is accepted. *)
Theorem nan_density_never_moves (initial_state : State) (n_mc : nat)
  (g : RandomSource) :
  target_density initial_state = NaN ->
  (1 <= n_mc)%nat ->
  exists final,
    sampler initial_state n_mc g = Some final /\
    markov_chain final = replicate n_mc initial_state /\
    acceptances final = 0%nat.
Proof.
  intros Hnan Hn.
  destruct (state_at_invariant draw_noise draw_rand target_density propose
              initial_state n_mc g (n_mc - 1))
    as (final' & Hfinal' & Hlen & _); [lia..|].
  destruct (state_at_ind initial_state n_mc g
    (fun k s =>
       (forall j, (j <= k)%nat -> markov_chain s !! j = Some initial_state) /\
       acceptances s = 0%nat)) with (k := (n_mc - 1)%nat)
    as (final & Hfinal & Hrows & Hacc); [done| | |lia|].
  - intros s0. rewrite initialise_Some by done. intros [= <-].
    split; [|done]. intros j Hj. assert (j = 0%nat) as -> by lia. simpl.
    apply list_lookup_insert_eq. unfold zeros. rewrite length_replicate. lia.
  - intros k s s' Hk _ [Hrows Hacc] Hbody.
    destruct (loop_body_inv _ _ _ _ _ _ _ Hbody)
      as (cur & noise & g1 & rand & g2 & Hcur & _ & _ & Hlt & _ & _ & Hif).
    rewrite Hrows in Hcur by lia. injection Hcur as <-.
    rewrite Hnan, nothing_beats_nan in Hif. destruct Hif as [-> ->].
    split; [|done]. intros j Hj. destruct (decide (j = k + 1)%nat) as [->|Hne].
    + by apply list_lookup_insert_eq.
    + rewrite list_lookup_insert_ne by done. apply Hrows. lia.
  - assert (final' = final) as -> by congruence.
    exists final. split; [exact Hfinal|]. split; [|done].
    apply list_eq. intros j. destruct (decide (j < n_mc)%nat) as [Hj|Hj].
    + rewrite Hrows by lia. symmetry. by apply lookup_replicate_2.
    + rewrite !lookup_ge_None_2; [done| |]; rewrite ?length_replicate; lia.
Qed.

(** No acceptance, no move: when the run ends with the counter at 0, all
    [n_mc] states of the chain are the first guess. *)
Theorem no_acceptance_constant_chain (initial_state : State) (n_mc : nat)
  (g : RandomSource) :
  (1 <= n_mc)%nat ->
  exists final,
    sampler initial_state n_mc g = Some final /\
    (acceptances final = 0%nat ->
     markov_chain final = replicate n_mc initial_state).
Proof.
  intros Hn.
  destruct (state_at_invariant draw_noise draw_rand target_density propose
              initial_state n_mc g (n_mc - 1))
    as (final' & Hfinal' & Hlen & _); [lia..|].
  destruct (state_at_ind initial_state n_mc g
    (fun k s =>
       acceptances s = 0%nat ->
       forall j, (j <= k)%nat -> markov_chain s !! j = Some initial_state))
    with (k := (n_mc - 1)%nat) as (final & Hfinal & Hrows); [done| | |lia|].
  - intros s0. rewrite initialise_Some by done. intros [= <-] _ j Hj.
    assert (j = 0%nat) as -> by lia. simpl.
    apply list_lookup_insert_eq. unfold zeros. rewrite length_replicate. lia.
  - intros k s s' Hk _ Hrows Hbody Hzero.
    pose proof (loop_body_acceptances _ _ _ _ _ _ _ Hbody) as Hmono.
    assert (Hs0 : acceptances s = 0%nat) by lia. specialize (Hrows Hs0).
    destruct (loop_body_inv _ _ _ _ _ _ _ Hbody)
      as (cur & noise & g1 & rand & g2 & Hcur & _ & _ & Hlt & _ & _ & Hif).
    rewrite Hrows in Hcur by lia. injection Hcur as <-.
    destruct (greater _ rand); destruct Hif as [Hch Hacc]; [lia|].
    rewrite Hch. intros j Hj. destruct (decide (j = k + 1)%nat) as [->|Hne].
    + by apply list_lookup_insert_eq.
    + rewrite list_lookup_insert_ne by done. apply Hrows. lia.
  - assert (final' = final) as -> by congruence.
    exists final. split; [exact Hfinal|]. intros Hzero.
    apply list_eq. intros j. destruct (decide (j < n_mc)%nat) as [Hj|Hj].
    + rewrite (Hrows Hzero) by lia. symmetry. by apply lookup_replicate_2.
    + rewrite !lookup_ge_None_2; [done| |]; rewrite ?length_replicate; lia.
Qed.

(** A property of states that the first guess has and that every accepted
    candidate inherits from the state it was proposed from holds of every
    state of the returned chain (the uniform draws being non-negative
    numbers). *)
Lemma rows_kept (P : State -> Prop) (initial_state : State) (n_mc : nat)
  (g : RandomSource) :
  (forall g', exists u, fst (draw_rand g') = Fin u /\ 0 <= u) ->
  P initial_state ->
  (forall cur noise u,
     P cur -> 0 <= u ->
     greater (true_divide (target_density (propose cur noise))
                          (target_density cur)) (Fin u) = true ->
     P (propose cur noise)) ->
  (1 <= n_mc)%nat ->
  exists final,
    sampler initial_state n_mc g = Some final /\
    forall j, (j < n_mc)%nat ->
      exists row, markov_chain final !! j = Some row /\ P row.
Proof.
  intros Hrand Hinit Hacc Hn.
  destruct (state_at_ind initial_state n_mc g
    (fun k s =>
       forall j, (j <= k)%nat ->
         exists row, markov_chain s !! j = Some row /\ P row))
    with (k := (n_mc - 1)%nat) as (final & Hfinal & Hrows); [done| | |lia|].
  - intros s0. rewrite initialise_Some by done. intros [= <-] j Hj.
    assert (j = 0%nat) as -> by lia.
    exists initial_state. split; [|done]. simpl.
    apply list_lookup_insert_eq. unfold zeros. rewrite length_replicate. lia.
  - intros k s s' Hk _ Hrows Hbody.
    destruct (loop_body_inv _ _ _ _ _ _ _ Hbody)
      as (cur & noise & g1 & rand & g2 & Hcur & _ & Hr & Hlt & _ & _ & Hif).
    destruct (Hrows k) as (row & Hrow & HP); [lia|].
    assert (row = cur) as -> by congruence.
    destruct (Hrand g1) as (u & Hu & Hu0). rewrite Hr in Hu. simpl in Hu.
    subst rand. intros j Hj.
    destruct (decide (j = k + 1)%nat) as [->|Hne].
    + destruct (greater _ (Fin u)) eqn:Haccept; destruct Hif as [-> _];
        rewrite list_lookup_insert_eq by done; eexists; (split; [done|]);
        [by eapply Hacc | done].
    + destruct (Hrows j) as (r & Hr' & Hp); [lia|]. exists r. split; [|done].
      destruct (greater _ (Fin u)); destruct Hif as [-> _];
        by rewrite list_lookup_insert_ne.
  - exists final. split; [exact Hfinal|]. intros j Hj. apply Hrows. lia.
Qed.

End LoopInvariants.

(** * Further properties of the unknown-variance target *)

(** Evaluation of the float64 operations, by cases on the sign tests
    they make. *)
Ltac eval_float :=
  repeat (cbv beta iota zeta delta
            [inf_like negative NumPy.exp multiply true_divide add subtract
             square of_bool fst snd];
          try match goal with
              | |- context [Req_dec_T ?a ?b] => destruct (Req_dec_T a b); try lra
              | |- context [Rlt_dec ?a ?b] => destruct (Rlt_dec a b); try lra
              end).

(** The values [posterior_space_2] can take, for finite [mean] and [sigma]
    and [N > 2]: a positive number on the support, and nothing but 0 or NaN
    off it. *)
Lemma posterior_space_2_cases (m sg : R) (N : Z) (c : State) :
  (2 < N)%Z ->
  (in_support c /\ positive (posterior_space_2 (Fin m) (Fin sg) N c)) \/
  posterior_space_2 (Fin m) (Fin sg) N c = Fin 0 \/
  posterior_space_2 (Fin m) (Fin sg) N c = NaN.
Proof.
  intros HN. apply IZR_lt in HN.
  assert (He : IZR (- N + 2) < 0) by (push_IZR; lra).
  destruct c as [x [s| | |]].
  - destruct (Rlt_dec 0 s) as [Hs|Hs].
    + assert (Hss : 0 < s * s) by nra.
      assert (Hpw : 0 < Rpower s (IZR (- N + 2))) by apply exp_pos.
      destruct x as [mu| | |].
      * left. split; [by exists mu, s|].
        rewrite posterior_space_2_positive by done. eexists. split; [done|].
        rewrite Rmult_1_l. apply Rmult_lt_0_compat; apply exp_pos.
      * right. left. unfold posterior_space_2. cbn [fst snd].
        rewrite power_positive, (greater_Fin s 0) by done.
        eval_float. f_equal. ring.
      * right. left. unfold posterior_space_2. cbn [fst snd].
        rewrite power_positive, (greater_Fin s 0) by done.
        eval_float. f_equal. ring.
      * right. right. unfold posterior_space_2. cbn [fst snd].
        rewrite power_positive, (greater_Fin s 0) by done. reflexivity.
    + right. unfold posterior_space_2. cbn [snd].
      rewrite greater_zero_negative by lra. rewrite indicator_product.
      destruct (_ && _); auto.
  - right. unfold posterior_space_2. cbn [fst snd].
    assert (Hp : power PInf (IZR (- N + 2)) = Fin 0).
    { unfold power. eval_float. done. }
    rewrite Hp. change (greater PInf (Fin 0)) with true.
    destruct x as [mu| | |]; eval_float; auto; left; f_equal; ring.
  - right. unfold posterior_space_2. cbn [snd].
    change (greater NInf (Fin 0)) with false. rewrite indicator_product.
    destruct (_ && _); auto.
  - right. unfold posterior_space_2. cbn [snd].
    change (greater NaN (Fin 0)) with false. rewrite indicator_product.
    destruct (_ && _); auto.
Qed.

(** The target of [mcmc_unknownvariance] takes no negative and no infinite
    value: at every state, in or out of the support and finite or not, it
    is NaN or a number [a >= 0]; and where it is positive the state is in
    the support. *)
Theorem posterior_space_2_nonnegative_or_nan (c : State) :
  posterior_space_2 meanx sigmax Nx c = NaN \/
  exists a, posterior_space_2 meanx sigmax Nx c = Fin a /\ 0 <= a /\
            (0 < a -> in_support c).
Proof.
  unfold meanx, sigmax, Nx.
  destruct (posterior_space_2_cases 5 2 100 c) as [[Hc (a & Ha & Hpos)]|[H|H]];
    [lia| | |].
  - right. exists a. split; [done|]. split; [lra|done].
  - right. exists 0. split; [done|]. split; lra.
  - by left.
Qed.

(** The chain of [mcmc_unknownvariance] stays in the support.  Started from
    a finite mean and a finite positive second component, with non-negative
    uniform draws and whatever the noise draws (finite or not), every state
    of the returned chain has a finite mean and a finite, positive second
    component: a candidate off the support has density 0 or NaN and loses
    the test [r > rand]. *)
Theorem unknownvariance_chain_stays_in_support {RandomSource : Type}
  (draw_rand : RandomSource -> float64 * RandomSource)
  (initial_state : State) (n_mc : nat)
  (draw_randn : RandomSource -> State * RandomSource) (g : RandomSource) :
  (forall g', exists u, fst (draw_rand g') = Fin u /\ 0 <= u) ->
  in_support initial_state ->
  (1 <= n_mc)%nat ->
  exists final,
    mcmc_unknownvariance draw_rand initial_state n_mc draw_randn g
      = Some final /\
    forall j, (j < n_mc)%nat ->
      exists row, markov_chain final !! j = Some row /\ in_support row.
Proof.
  intros Hrand Hinit Hn. unfold mcmc_unknownvariance.
  apply rows_kept; [done..| |done].
  intros cur noise u (mu & s & -> & Hs) Hu Hacc.
  assert (Hpos : positive (posterior_space_2 meanx sigmax Nx (Fin mu, Fin s))).
  { unfold meanx, sigmax. rewrite posterior_space_2_positive by done.
    eexists. split; [done|]. rewrite Rmult_1_l.
    apply Rmult_lt_0_compat; apply exp_pos. }
  destruct (accepted_over_positive _ _ _ Hpos Hu Hacc) as [(a & Ha & Ha0)|Hinf];
    unfold meanx, sigmax, Nx in *;
    destruct (posterior_space_2_cases 5 2 100
                (unknownvariance_propose (Fin mu, Fin s) noise))
      as [[Hc _]|[H|H]]; try lia; try done; rewrite H in *; try done.
  injection Ha as <-. lra.
Qed.


(** The ratio [mcmc_knownvariance] reports is a number of [[0, 1)]: at most
    [(n_mc - 1) / n_mc], since the loop makes [n_mc - 1] proposals and the
    count is divided by [n_mc]. *)
Theorem reported_ratio_below_one {RandomSource : Type}
  (draw_rand : RandomSource -> float64 * RandomSource)
  (pdf : State -> float64) (initial_state : State) (n_mc : nat)
  (draw_noise : RandomSource -> State * RandomSource) (g : RandomSource) :
  (1 <= n_mc)%nat ->
  exists final r,
    mcmc_knownvariance draw_rand pdf initial_state n_mc draw_noise g =
      Some (final, Fin r) /\
    0 <= r <= (INR n_mc - 1) / INR n_mc /\ r < 1.
Proof.
  intros Hn.
  destruct (state_at_invariant draw_noise draw_rand pdf row_add
              initial_state n_mc g (n_mc - 1))
    as (final & Hfinal & _ & _ & Hacc); [lia..|].
  exists final, (INR (acceptances final) / INR n_mc).
  assert (Hn' : 1 <= INR n_mc) by (change 1 with (INR 1); apply le_INR; lia).
  assert (Ha0 : 0 <= INR (acceptances final)) by apply pos_INR.
  assert (Ha1 : INR (acceptances final) <= INR n_mc - 1).
  { apply le_INR in Hacc. rewrite minus_INR in Hacc by lia. simpl in Hacc. lra. }
  split.
  - unfold mcmc_knownvariance, run. rewrite Hfinal. simpl.
    unfold acceptance_ratio. destruct (decide (n_mc = 0%nat)); [lia|done].
  - assert (Hinv : 0 < / INR n_mc) by (apply Rinv_0_lt_compat; lra).
    unfold Rdiv. repeat split.
    + apply Rmult_le_pos; lra.
    + apply Rmult_le_compat_r; lra.
    + apply Rmult_lt_reg_r with (INR n_mc); [lra|].
      rewrite Rmult_assoc, Rinv_l by lra. lra.
Qed.

(** * Runs of different lengths *)

Section LongerRuns.

Context {RandomSource Noise : Type}.
Variable draw_noise : RandomSource -> Noise * RandomSource.
Variable draw_rand : RandomSource -> float64 * RandomSource.
Variable target_density : State -> float64.
Variable propose : State -> Noise -> State.

Local Abbreviation body := (loop_body draw_noise draw_rand target_density propose).
Local Abbreviation at_step := (state_at draw_noise draw_rand target_density propose).
Local Abbreviation sampler := (run draw_noise draw_rand target_density propose).

(** A longer run extends a shorter one.  From the same first guess and the
    same state of the random generator, the chain of [n_mc] states is the
    first [n_mc] states of the chain of [n_mc' >= n_mc] states, and the
    longer run has accepted at least as often. *)
Theorem longer_run_extends (initial_state : State) (n_mc n_mc' : nat)
  (g : RandomSource) :
  (1 <= n_mc)%nat -> (n_mc <= n_mc')%nat ->
  exists final final',
    sampler initial_state n_mc g = Some final /\
    sampler initial_state n_mc' g = Some final' /\
    markov_chain final = take n_mc (markov_chain final') /\
    (acceptances final <= acceptances final')%nat.
Proof.
  intros Hn Hle.
  destruct (state_at_invariant draw_noise draw_rand target_density propose
              initial_state n_mc g (n_mc - 1))
    as (final0 & Hfinal0 & Hlen & _); [lia..|].
  destruct (state_at_invariant draw_noise draw_rand target_density propose
              initial_state n_mc' g (n_mc' - 1))
    as (final' & Hfinal' & Hlen' & _); [lia..|].
  destruct (state_at_ind draw_noise draw_rand target_density propose
    initial_state n_mc g
    (fun k s =>
       exists s2, at_step initial_state n_mc' g k = Some s2 /\
         (forall j, (j <= k)%nat -> markov_chain s !! j = markov_chain s2 !! j) /\
         acceptances s = acceptances s2 /\
         random_state s = random_state s2))
    with (k := (n_mc - 1)%nat)
    as (final & Hfinal & s2 & Hs2 & Hrows & Hacc & _); [done| | |lia|].
  - intros s0. rewrite initialise_Some by done. intros [= <-].
    eexists. split.
    { unfold state_at. rewrite initialise_Some by lia. reflexivity. }
    split; [|done]. intros j Hj. assert (j = 0%nat) as -> by lia. simpl.
    rewrite !list_lookup_insert_eq;
      [done|unfold zeros; rewrite length_replicate; lia..].
  - intros k s s' Hk _ (s2 & Hs2 & Hrows & Hacc & Hrng) Hbody.
    destruct (state_at_invariant draw_noise draw_rand target_density propose
                initial_state n_mc' g (S k)) as (s2' & Hs2' & _); [lia..|].
    exists s2'. replace (k + 1)%nat with (S k) by lia. split; [done|].
    rewrite state_at_S, Hs2 in Hs2'. simpl in Hs2'.
    destruct (loop_body_inv _ _ _ _ _ _ _ Hbody)
      as (cur & noise & g1 & rand & g2 & Hcur & Hz & Hr & Hlt & Hg & _ & Hif).
    destruct (loop_body_inv _ _ _ _ _ _ _ Hs2')
      as (cur2 & noise2 & h1 & rand2 & h2 & Hcur2 & Hz2 & Hr2 & Hlt2 & Hg2 & _
          & Hif2).
    rewrite Hrows, Hcur2 in Hcur by lia. injection Hcur as ->.
    rewrite <- Hrng, Hz in Hz2. injection Hz2 as <- <-.
    rewrite Hr in Hr2. injection Hr2 as <- <-.
    replace (S k) with (k + 1)%nat by lia.
    destruct (greater _ rand); destruct Hif as [-> ->], Hif2 as [-> ->];
      (split; [|split; [lia|congruence]]);
      intros j Hj; (destruct (decide (j = k + 1)%nat) as [->|Hne];
        [by rewrite !list_lookup_insert_eq
        |rewrite !list_lookup_insert_ne by done; apply Hrows; lia]).
  - assert (final0 = final) as -> by congruence.
    exists final, final'. split; [exact Hfinal|]. split; [exact Hfinal'|].
    split.
    + apply list_eq. intros j. destruct (decide (j < n_mc)%nat) as [Hj|Hj].
      * rewrite lookup_take_lt, Hrows by lia. symmetry.
        apply (state_at_stable draw_noise draw_rand target_density propose
                 initial_state n_mc' g (n_mc - 1) (n_mc' - 1) j s2 final');
          (done || lia).
      * rewrite lookup_take_ge by lia. apply lookup_ge_None_2. lia.
    + rewrite Hacc.
      apply (state_at_acceptances_mono draw_noise draw_rand target_density
               propose initial_state n_mc' g (n_mc - 1) (n_mc' - 1) s2 final');
        (done || lia).
Qed.

End LongerRuns.

(** ** Worked inputs for the further properties *)

Lemma constant_rand_nonnegative :
  forall g : unit, exists u, fst (constant_rand (Fin 0.5) g) = Fin u /\ 0 <= u.
Proof. intros g. exists 0.5. split; [reflexivity|lra]. Qed.

Lemma support_indicator_never_inf (x : State) : support_indicator x <> PInf.
Proof. unfold support_indicator. by destruct (greater _ _). Qed.

Lemma positive_density_kept_witness :
  (forall g : unit, exists u, fst (constant_rand (Fin 0.5) g) = Fin u /\ 0 <= u) /\
  (forall x, support_indicator x <> PInf) /\
  positive (support_indicator (Fin 9.234, Fin 0.567)) /\
  (1 <= 3)%nat /\
  exists final,
    run (constant_noise (Fin 1, Fin 1)) (constant_rand (Fin 0.5))
        support_indicator row_add (Fin 9.234, Fin 0.567) 3 tt = Some final /\
    (forall j, (j < 3)%nat ->
       exists row, markov_chain final !! j = Some row /\
                   positive (support_indicator row)) /\
    ratio_warnings final = [].
Proof.
  assert (Hpos : positive (support_indicator (Fin 9.234, Fin 0.567))).
  { exists 1. split; [apply support_indicator_inside|]; lra. }
  split; [exact constant_rand_nonnegative|].
  split; [exact support_indicator_never_inf|].
  split; [exact Hpos|]. split; [lia|].
  apply (positive_density_kept (constant_noise (Fin 1, Fin 1))
           (constant_rand (Fin 0.5)) support_indicator row_add
           (Fin 9.234, Fin 0.567) 3 tt constant_rand_nonnegative
           support_indicator_never_inf Hpos).
  lia.
Defined.

Lemma unknownvariance_chain_stays_in_support_witness :
  (forall g : unit, exists u, fst (constant_rand (Fin 0.5) g) = Fin u /\ 0 <= u) /\
  in_support (Fin 3.2, Fin 8.6) /\
  (1 <= 3)%nat /\
  exists final,
    mcmc_unknownvariance (constant_rand (Fin 0.5)) (Fin 3.2, Fin 8.6) 3
      (constant_noise (Fin 0, Fin 1)) tt = Some final /\
    forall j, (j < 3)%nat ->
      exists row, markov_chain final !! j = Some row /\ in_support row.
Proof.
  assert (Hin : in_support (Fin 3.2, Fin 8.6)).
  { exists 3.2, 8.6. split; [reflexivity|lra]. }
  split; [exact constant_rand_nonnegative|]. split; [exact Hin|].
  split; [lia|].
  apply (unknownvariance_chain_stays_in_support (constant_rand (Fin 0.5))
           (Fin 3.2, Fin 8.6) 3 (constant_noise (Fin 0, Fin 1)) tt
           constant_rand_nonnegative Hin).
  lia.
Defined.

(** A target that is NaN everywhere. *)
Lemma nan_density_never_moves_witness :
  (fun _ : State => NaN) (Fin 3.2, Fin 0) = NaN /\
  (1 <= 3)%nat /\
  exists final,
    run (constant_noise (Fin 1, Fin 1)) (constant_rand (Fin 0.5))
        (fun _ : State => NaN) row_add (Fin 3.2, Fin 0) 3 tt = Some final /\
    markov_chain final = replicate 3 (Fin 3.2, Fin 0) /\
    acceptances final = 0%nat.
Proof.
  split; [reflexivity|]. split; [lia|].
  apply (nan_density_never_moves (constant_noise (Fin 1, Fin 1))
           (constant_rand (Fin 0.5)) (fun _ : State => NaN) row_add
           (Fin 3.2, Fin 0) 3 tt); [reflexivity | lia].
Defined.

Lemma reported_ratio_below_one_witness :
  (1 <= 3)%nat /\
  exists final r,
    mcmc_knownvariance (constant_rand (Fin 0.5)) support_indicator
        (Fin 9.234, Fin 0.567) 3 (constant_noise (Fin 1, Fin 1)) tt =
      Some (final, Fin r) /\
    0 <= r <= (INR 3 - 1) / INR 3 /\ r < 1.
Proof.
  split; [lia|].
  apply (reported_ratio_below_one (constant_rand (Fin 0.5)) support_indicator
           (Fin 9.234, Fin 0.567) 3 (constant_noise (Fin 1, Fin 1)) tt).
  lia.
Defined.

Lemma longer_run_extends_witness :
  (1 <= 3)%nat /\ (3 <= 5)%nat /\
  exists final final',
    run (constant_noise (Fin 1, Fin 1)) (constant_rand (Fin 0.5))
        support_indicator row_add (Fin 9.234, Fin 0.567) 3 tt = Some final /\
    run (constant_noise (Fin 1, Fin 1)) (constant_rand (Fin 0.5))
        support_indicator row_add (Fin 9.234, Fin 0.567) 5 tt = Some final' /\
    markov_chain final = take 3 (markov_chain final') /\
    (acceptances final <= acceptances final')%nat.
Proof.
  split; [lia|]. split; [lia|].
  apply (longer_run_extends (constant_noise (Fin 1, Fin 1))
           (constant_rand (Fin 0.5)) support_indicator row_add
           (Fin 9.234, Fin 0.567) 3 5 tt); lia.
Defined.


Lemma posteriors_related_by_change_of_variable_witness :
  0 < 2 /\
  (forall m sg mu,
     posterior_space (Fin m) (Fin sg) 100 (Fin mu, Fin 1) =
     posterior_space_2 (Fin m) (Fin sg) 100 (Fin mu, Fin 1)) /\
  exists c, 0 < c /\
    forall m sg mu,
      posterior_space_2 (Fin m) (Fin sg) 100 (Fin mu, Fin 2) =
      multiply (Fin c) (posterior_space (Fin m) (Fin sg) 100 (Fin mu, Fin (2 * 2))).
Proof.
  split; [lra|].
  apply (posteriors_related_by_change_of_variable 100 2). lra.
Defined.

(** * The preallocated array and the random stream *)

Section ArrayAndStream.

Context {RandomSource Noise : Type}.
Variable draw_noise : RandomSource -> Noise * RandomSource.
Variable draw_rand : RandomSource -> float64 * RandomSource.
Variable target_density target_density' : State -> float64.
Variable propose propose' : State -> Noise -> State.

(** Rows the loop has not reached yet still hold the zeros the array was
    allocated with: at step [k], every row of index above [k] is [[0, 0]].
    A run cut short leaves zeros, not samples, in the tail of the chain. *)
Theorem rows_ahead_are_zero (initial_state : State) (n_mc : nat)
  (g : RandomSource) (k j : nat) :
  (k <= n_mc - 1)%nat -> (k < j < n_mc)%nat ->
  exists s,
    state_at draw_noise draw_rand target_density propose
      initial_state n_mc g k = Some s /\
    markov_chain s !! j = Some (Fin 0, Fin 0).
Proof.
  intros Hk Hj.
  destruct (state_at_invariant draw_noise draw_rand target_density propose
              initial_state n_mc g k) as (s & Hs & _); [lia..|].
  exists s. split; [done|].
  unfold state_at in Hs. rewrite initialise_Some in Hs by lia. simpl in Hs.
  rewrite (loop_frame _ _ _ _ _ _ _ _ Hs).
  - simpl. rewrite list_lookup_insert_ne by lia.
    apply lookup_replicate_2. lia.
  - intros i Hi. apply elem_of_seq in Hi. lia.
Qed.


End ArrayAndStream.

Lemma rows_ahead_are_zero_witness :
  (1 <= 3 - 1)%nat /\ (1 < 2 < 3)%nat /\
  exists s,
    state_at (constant_noise (Fin 1, Fin 1)) (constant_rand (Fin 0.5))
      support_indicator row_add (Fin 9.234, Fin 0.567) 3 tt 1 = Some s /\
    markov_chain s !! 2%nat = Some (Fin 0, Fin 0).
Proof.
  split; [lia|]. split; [lia|].
  apply (rows_ahead_are_zero (constant_noise (Fin 1, Fin 1))
           (constant_rand (Fin 0.5)) support_indicator row_add
           (Fin 9.234, Fin 0.567) 3 tt 1 2); lia.
Defined.


(** * The chain is filled row by row *)

Section ChainCompletion.

Context {RandomSource Noise : Type}.
Variable draw_noise : RandomSource -> Noise * RandomSource.
Variable draw_rand : RandomSource -> float64 * RandomSource.
Variable target_density : State -> float64.
Variable propose : State -> Noise -> State.

Local Abbreviation body := (loop_body draw_noise draw_rand target_density propose).
Local Abbreviation iterate := (loop draw_noise draw_rand target_density propose).
Local Abbreviation at_step := (state_at draw_noise draw_rand target_density propose).
Local Abbreviation sampler := (run draw_noise draw_rand target_density propose).

(** Each pass of the loop makes its two draws. *)
Lemma loop_random_state (k : nat) :
  forall (a : nat) (s s' : LoopState RandomSource),
    iterate (seq a k) s = Some s' ->
    random_state s' = after_draws draw_noise draw_rand k (random_state s).
Proof.
  induction k as [|k IH]; intros a s s'; simpl.
  - by intros [= ->].
  - destruct (body a s) as [s1|] eqn:Hbody; simpl; [|done].
    intros Hloop. rewrite (IH _ _ _ Hloop).
    destruct (loop_body_inv _ _ _ _ _ _ _ Hbody)
      as (cur & noise & g1 & rand & g2 & _ & Hz & Hr & _ & Hg & _).
    by rewrite Hz, Hr, Hg.
Qed.

(** A pass that fails the test [ratio > rand] copies the current row. *)
Lemma loop_body_rejects (i : nat) (s : LoopState RandomSource) (cur : State)
  (noise : Noise) (g1 g2 : RandomSource) (rand : float64) :
  markov_chain s !! i = Some cur ->
  (i + 1 < length (markov_chain s))%nat ->
  draw_noise (random_state s) = (noise, g1) ->
  draw_rand g1 = (rand, g2) ->
  greater (true_divide (target_density (propose cur noise))
                       (target_density cur)) rand = false ->
  body i s =
    Some (MkLoopState (<[(i + 1)%nat := cur]> (markov_chain s)) (acceptances s) g2
            (ratio_warnings s ++
             divide_warnings (target_density (propose cur noise))
                             (target_density cur))).
Proof.
  intros Hcur Hlt Hz Hr Hrej. unfold loop_body.
  rewrite Hcur. simpl. rewrite Hz, Hr, Hrej.
  by rewrite setitem_Some.
Qed.

(** C5: for [n_steps >= 1] the run returns a chain of exactly [n_steps]
    states, and the loop has produced every one of them after the first.
    The returned array has [n_mc] rows, row 0 is the first guess, and the
    run ends after exactly [n_mc - 1] passes (the random generator has made
    the draws of [n_mc - 1] passes).  After [k] passes the rows up to [k]
    are settled, as in the returned chain, and the rows above [k] are still
    the zeros of the allocation; when the loop stops, at [k = n_mc - 1],
    no row is left unwritten.  Each row [i + 1] was produced by pass [i]
    from row [i]: it is the candidate proposed from row [i] or row [i]
    itself. *)
Theorem run_returns_n_mc_states (initial_state : State) (n_mc : nat)
  (g : RandomSource) :
  (1 <= n_mc)%nat ->
  exists final,
    sampler initial_state n_mc g = Some final /\
    length (markov_chain final) = n_mc /\
    random_state final = after_draws draw_noise draw_rand (n_mc - 1) g /\
    markov_chain final !! 0%nat = Some initial_state /\
    (forall k, (k <= n_mc - 1)%nat ->
       exists s,
         at_step initial_state n_mc g k = Some s /\
         (forall j, (j <= k)%nat ->
            markov_chain s !! j = markov_chain final !! j) /\
         (forall j, (k < j < n_mc)%nat ->
            markov_chain s !! j = Some (Fin 0, Fin 0))) /\
    (forall i, (i + 1 < n_mc)%nat ->
       exists s current noise g1,
         at_step initial_state n_mc g i = Some s /\
         markov_chain final !! i = Some current /\
         draw_noise (random_state s) = (noise, g1) /\
         (markov_chain final !! (i + 1)%nat = Some (propose current noise) \/
          markov_chain final !! (i + 1)%nat = Some current)).
Proof.
  intros Hn.
  destruct (state_at_invariant draw_noise draw_rand target_density propose
              initial_state n_mc g (n_mc - 1))
    as (final & Hfinal & Hlen & H0 & _); [lia..|].
  exists final. split; [exact Hfinal|]. split; [exact Hlen|].
  split; [|split; [exact H0|split]].
  - unfold state_at in Hfinal. rewrite initialise_Some in Hfinal by done.
    simpl in Hfinal. by rewrite (loop_random_state _ _ _ _ Hfinal).
  - intros k Hk.
    destruct (state_at_invariant draw_noise draw_rand target_density propose
                initial_state n_mc g k) as (s & Hs & _); [lia..|].
    exists s. split; [exact Hs|]. split.
    + intros j Hj. symmetry.
      apply (state_at_stable draw_noise draw_rand target_density propose
               initial_state n_mc g k (n_mc - 1) j s final); (done || lia).
    + intros j Hj. unfold state_at in Hs.
      rewrite initialise_Some in Hs by done. simpl in Hs.
      rewrite (loop_frame _ _ _ _ _ _ _ _ Hs).
      * simpl. rewrite list_lookup_insert_ne by lia.
        apply lookup_replicate_2. lia.
      * intros i Hi. apply elem_of_seq in Hi. lia.
  - intros i Hi.
    destruct (pass_of_run draw_noise draw_rand target_density propose
                initial_state n_mc g i Hi)
      as (final' & s & s' & Hfinal' & Hs & _ & Hbody & Hrow & Hnext).
    assert (final' = final) as -> by (unfold run in Hfinal'; congruence).
    destruct (loop_body_inv _ _ _ _ _ _ _ Hbody)
      as (cur & noise & g1 & rand & g2 & Hcur & Hz & _ & Hlt & _ & _ & Hif).
    exists s, cur, noise, g1. split; [exact Hs|].
    split; [congruence|]. split; [exact Hz|].
    rewrite Hnext.
    destruct (greater _ rand); destruct Hif as [-> _];
      rewrite list_lookup_insert_eq by done; auto.
Qed.

End ChainCompletion.

Lemma run_returns_n_mc_states_witness :
  (1 <= 3)%nat /\
  exists final,
    run (counting_noise (Fin 1, Fin 1)) (counting_rand (Fin 0.5))
        support_indicator row_add (Fin 9.234, Fin 0.567) 3 0%nat = Some final /\
    length (markov_chain final) = 3%nat /\
    random_state final =
      after_draws (counting_noise (Fin 1, Fin 1)) (counting_rand (Fin 0.5))
        (3 - 1) 0%nat /\
    markov_chain final !! 0%nat = Some (Fin 9.234, Fin 0.567) /\
    (forall k, (k <= 3 - 1)%nat ->
       exists s,
         state_at (counting_noise (Fin 1, Fin 1)) (counting_rand (Fin 0.5))
           support_indicator row_add (Fin 9.234, Fin 0.567) 3 0%nat k = Some s /\
         (forall j, (j <= k)%nat ->
            markov_chain s !! j = markov_chain final !! j) /\
         (forall j, (k < j < 3)%nat ->
            markov_chain s !! j = Some (Fin 0, Fin 0))) /\
    (forall i, (i + 1 < 3)%nat ->
       exists s current noise g1,
         state_at (counting_noise (Fin 1, Fin 1)) (counting_rand (Fin 0.5))
           support_indicator row_add (Fin 9.234, Fin 0.567) 3 0%nat i = Some s /\
         markov_chain final !! i = Some current /\
         counting_noise (Fin 1, Fin 1) (random_state s) = (noise, g1) /\
         (markov_chain final !! (i + 1)%nat = Some (row_add current noise) \/
          markov_chain final !! (i + 1)%nat = Some current)).
Proof.
  split; [lia|].
  apply (run_returns_n_mc_states (counting_noise (Fin 1, Fin 1))
           (counting_rand (Fin 0.5)) support_indicator row_add
           (Fin 9.234, Fin 0.567) 3 0%nat).
  lia.
Defined.

(** A run in which every proposal leaves the support and is rejected: a
    flat target on the support, the first guess [[9.234, 0.567]] and the
    noise [[1, -1]] at every pass. *)
Lemma rejecting_run :
  run (constant_noise (Fin 1, Fin (-1))) (constant_rand (Fin 0.5))
      support_indicator row_add (Fin 9.234, Fin 0.567) 3 tt =
  Some (MkLoopState (replicate 3 (Fin 9.234, Fin 0.567)) 0 tt []).
Proof.
  assert (Hrej :
    greater (true_divide
               (support_indicator (row_add (Fin 9.234, Fin 0.567) (Fin 1, Fin (-1))))
               (support_indicator (Fin 9.234, Fin 0.567))) (Fin 0.5) = false).
  { rewrite support_indicator_inside by lra.
    change (row_add (Fin 9.234, Fin 0.567) (Fin 1, Fin (-1)))
      with (Fin (9.234 + 1), Fin (0.567 + -1)).
    rewrite support_indicator_outside by lra.
    rewrite true_divide_Fin by lra. simpl.
    destruct (Rlt_dec 0.5 (0 / 1)); [lra|done]. }
  assert (Hquiet :
    divide_warnings
      (support_indicator (row_add (Fin 9.234, Fin 0.567) (Fin 1, Fin (-1))))
      (support_indicator (Fin 9.234, Fin 0.567)) = []).
  { rewrite support_indicator_inside by lra.
    destruct (support_indicator _); simpl; try done.
    destruct (Req_dec_T 1 0); [lra|done]. }
  unfold run, state_at. rewrite initialise_Some by lia.
  cbn [mbind option_bind Nat.sub seq loop].
  rewrite (loop_body_rejects _ _ _ _ 0 _ (Fin 9.234, Fin 0.567)
             (Fin 1, Fin (-1)) tt tt (Fin 0.5));
    [|reflexivity|simpl; lia|reflexivity|reflexivity|exact Hrej].
  cbn [mbind option_bind markov_chain acceptances ratio_warnings].
  rewrite (loop_body_rejects _ _ _ _ 1 _ (Fin 9.234, Fin 0.567)
             (Fin 1, Fin (-1)) tt tt (Fin 0.5));
    [|reflexivity|simpl; lia|reflexivity|reflexivity|exact Hrej].
  cbn [mbind option_bind markov_chain acceptances ratio_warnings].
  rewrite Hquiet. reflexivity.
Qed.

(** The run above ends with the counter at 0, and its chain is constant. *)
Lemma no_acceptance_constant_chain_witness :
  (1 <= 3)%nat /\
  exists final,
    run (constant_noise (Fin 1, Fin (-1))) (constant_rand (Fin 0.5))
        support_indicator row_add (Fin 9.234, Fin 0.567) 3 tt = Some final /\
    acceptances final = 0%nat /\
    markov_chain final = replicate 3 (Fin 9.234, Fin 0.567).
Proof.
  split; [lia|].
  destruct (no_acceptance_constant_chain (constant_noise (Fin 1, Fin (-1)))
              (constant_rand (Fin 0.5)) support_indicator row_add
              (Fin 9.234, Fin 0.567) 3 tt) as (final & Hrun & Hconstant); [lia|].
  exists final. split; [exact Hrun|].
  assert (Hzero : acceptances final = 0%nat).
  { rewrite rejecting_run in Hrun. by injection Hrun as <-. }
  split; [exact Hzero | exact (Hconstant Hzero)].
Defined.
